(** * Metadata forms of the EDMS metadata app (metadata/forms.py)

    A shallow embedding of the form classes of [metadata/forms.py]: the
    per-document metadata value form, the bulk add and bulk remove forms and
    the document type / metadata type relationship form, together with the
    part of the persistence layer the relationship form drives.

    Python objects are records, dictionaries are finite maps, exceptions are
    an error type, and code that talks to the database runs in a small
    state-and-error monad over the relationship table and a log of the
    persistence and collaborator calls made. *)

From stdpp Require Import gmap strings list fin_maps.

(** ** Python values, exceptions and results *)

(** The exceptions this module can raise or let through. *)
Inductive exn : Type :=
| KeyError (key : string)
| AttributeError (attr : string)
| TypeError (msg : string)
| ValidationError (msg : string)
| DoesNotExist
| MultipleObjectsReturned
| OtherException (msg : string).

Inductive result (A : Type) : Type :=
| Ok (a : A)
| Raise (e : exn).
Arguments Ok {A} a.
Arguments Raise {A} e.

(** The values that travel through form fields and [cleaned_data]. *)
Inductive pyval : Type :=
| PNone
| PBool (b : bool)
| PInt (n : nat)
| PStr (s : string).

(** Python truthiness. *)
Definition truthy (v : pyval) : bool :=
  match v with
  | PNone => false
  | PBool b => b
  | PInt n => negb (Nat.eqb n 0)
  | PStr s => negb (String.eqb s "")
  end.

(** [d.get(key)]: [None] when the key is absent. *)
Definition dict_get (d : gmap string pyval) (key : string) : pyval :=
  default PNone (d !! key).

(** ** Model objects *)

Definition User := nat.

Record DocumentType : Type := {
  dt_pk : nat;
  dt_label : string }.

(** [MetadataType]: the two templates are strings, empty when not set. *)
Record MetadataType : Type := {
  mt_pk : nat;
  mt_name : string;
  mt_label : string;
  mt_default : string;
  mt_lookup : string }.

(** A stored [DocumentTypeMetadataType] row; the primary key is the key of
    the table. *)
Record Row : Type := {
  row_document_type : nat;
  row_metadata_type : nat;
  row_required : bool }.

#[global] Instance Row_eq_dec : EqDecision Row.
Proof. solve_decision. Defined.

(** An in-memory [DocumentTypeMetadataType] instance: no primary key until
    it has been saved. *)
Record Instance : Type := {
  inst_pk : option nat;
  inst_row : Row }.

Definition set_required (i : Instance) (b : bool) : Instance :=
  {| inst_pk := inst_pk i;
     inst_row := {| row_document_type := row_document_type (inst_row i);
                    row_metadata_type := row_metadata_type (inst_row i);
                    row_required := b |} |}.

(** ** The world: relationship table and call log *)

Inductive event : Type :=
| EvExists (document_type metadata_type : nat)
| EvGet (document_type metadata_type : nat)
| EvSave (created : bool) (pk : nat) (row : Row) (user : User)
| EvDelete (pk : nat) (row : Row) (user : User)
| EvRequiredFor (metadata_type document_type : nat)
| EvLookupValues (metadata_type : nat)
| EvDefaultValue (metadata_type : nat)
| EvValidateValue (metadata_type document_type : nat) (value : pyval).

Record World : Type := {
  relationships : gmap nat Row;
  log : list event }.

Definition M (A : Type) : Type := World → World * result A.

Definition ret {A} (a : A) : M A := λ w, (w, Ok a).
Definition raise {A} (e : exn) : M A := λ w, (w, Raise e).
Definition bind {A B} (m : M A) (k : A → M B) : M B :=
  λ w, match m w with
       | (w', Ok a) => k a w'
       | (w', Raise e) => (w', Raise e)
       end.

Notation "'do' x <- m ; k" := (bind m (λ x, k))
  (at level 10, x name, m at level 100, k at level 200).
Notation "'do_' m ; k" := (bind m (λ _, k))
  (at level 10, m at level 100, k at level 200).

Definition lift {A} (r : result A) : M A := λ w, (w, r).

Definition emit (e : event) : M unit :=
  λ w, ({| relationships := relationships w; log := log w ++ [e] |}, Ok tt).

(** [d[key]] and attribute access on an object that may lack them. *)
Definition getitem {A} (key : string) (o : option A) : M A :=
  match o with
  | Some a => ret a
  | None => raise (KeyError key)
  end.

Definition getattr {A} (attr : string) (o : option A) : M A :=
  match o with
  | Some a => ret a
  | None => raise (AttributeError attr)
  end.

(** ** The persistence layer *)

(** A lazy queryset over the relationship table:
    [document_type.metadata.filter(metadata_type=...)]. Building it touches
    nothing; only [exists] and [get] run a query. *)
Record RelQuery : Type := {
  q_document_type : nat;
  q_metadata_type : nat }.

Definition row_matches (q : RelQuery) (r : Row) : Prop :=
  row_document_type r = q_document_type q ∧
  row_metadata_type r = q_metadata_type q.

#[global] Instance row_matches_dec q r : Decision (row_matches q r).
Proof. unfold row_matches. apply _. Defined.

Definition matching (q : RelQuery) (tbl : gmap nat Row) : gmap nat Row :=
  filter (λ kr, row_matches q kr.2) tbl.

(** Modelled from the spec: the persistence layer (the ORM and models.py,
    which declares [DocumentTypeMetadataType] with its [save(_user)] and
    [delete(_user)], are not among the sources). The spec gives entities
    [save(actor)] and [delete(actor)] and existence/lookup queries by
    (document_type, metadata_type). [exists] tells whether some row matches;
    [get] returns the single matching row and fails when there is none or
    more than one. *)
Definition QuerySet_exists (q : RelQuery) : M bool :=
  do_ emit (EvExists (q_document_type q) (q_metadata_type q));
  λ w, (w, Ok (bool_decide (matching q (relationships w) ≠ ∅))).

Definition QuerySet_get (q : RelQuery) : M Instance :=
  do_ emit (EvGet (q_document_type q) (q_metadata_type q));
  λ w, (w, match map_to_list (matching q (relationships w)) with
           | [] => Raise DoesNotExist
           | [(k, r)] => Ok {| inst_pk := Some k; inst_row := r |}
           | _ => Raise MultipleObjectsReturned
           end).

(** Modelled from the spec: [instance.save(_user=...)] of models.py. An
    instance with a primary key overwrites that row, one without is
    inserted under a fresh key; the acting user is recorded with the
    write. *)
Definition Model_save (i : Instance) (user : User) : M unit :=
  λ w,
    let tbl := relationships w in
    let k := match inst_pk i with
             | Some k => k
             | None => fresh (dom tbl)
             end in
    ({| relationships := <[k := inst_row i]> tbl;
        log := log w ++ [EvSave (bool_decide (tbl !! k = None)) k (inst_row i) user] |},
     Ok tt).

(** Modelled from the spec: [instance.delete(_user=...)] of models.py. *)
Definition Model_delete (i : Instance) (user : User) : M unit :=
  match inst_pk i with
  | Some k =>
      λ w, ({| relationships := delete k (relationships w);
               log := log w ++ [EvDelete k (inst_row i) user] |}, Ok tt)
  | None => raise (OtherException "object can't be deleted because its pk attribute is set to None.")
  end.

(** Modelled from the spec: the model's default for [required], declared in
    models.py which is not among the sources; the spec has the row created
    without an explicit flag be non-required. *)
Definition required_default : bool := false.

(** [DocumentTypeMetadataType(document_type=..., metadata_type=..., required=...)]. *)
Definition DocumentTypeMetadataType (dt : DocumentType) (mt : MetadataType)
    (required : bool) : Instance :=
  {| inst_pk := None;
     inst_row := {| row_document_type := dt_pk dt;
                    row_metadata_type := mt_pk mt;
                    row_required := required |} |}.

(** The data-model invariant: at most one relationship row per
    (document type, metadata type) pair. *)
Definition unique_pairs (tbl : gmap nat Row) : Prop :=
  ∀ k1 k2 r1 r2,
    tbl !! k1 = Some r1 → tbl !! k2 = Some r2 →
    row_document_type r1 = row_document_type r2 →
    row_metadata_type r1 = row_metadata_type r2 →
    k1 = k2.

(** ** Form fields *)

Inductive field_class : Type :=
| CharField | BooleanField | ChoiceField | ModelMultipleChoiceField.

Inductive widget_class : Type :=
| TextInput | HiddenInput | CheckboxInput | Select | RadioSelect | SelectMultiple.

Record Widget : Type := {
  widget_class_of : widget_class;
  attrs : gmap string string }.

Record Field : Type := {
  field_class_of : field_class;
  field_label : string;
  field_required : bool;
  field_initial : pyval;
  field_widget : Widget;
  field_choices : list (string * string) }.

(** Field constructors with the framework's defaults: [required=True],
    [initial=None], and the default widget of the field class. *)
Definition forms_TextInput (a : gmap string string) : Widget :=
  {| widget_class_of := TextInput; attrs := a |}.

Definition forms_CharField (label : string) (required : bool) (widget : Widget) : Field :=
  {| field_class_of := CharField; field_label := label; field_required := required;
     field_initial := PNone; field_widget := widget; field_choices := [] |}.

Definition forms_BooleanField (initial : bool) (label : string) (required : bool) : Field :=
  {| field_class_of := BooleanField; field_label := label; field_required := required;
     field_initial := PBool initial;
     field_widget := {| widget_class_of := CheckboxInput; attrs := ∅ |};
     field_choices := [] |}.

Definition forms_ChoiceField (label : string) (widget : Widget)
    (choices : list (string * string)) : Field :=
  {| field_class_of := ChoiceField; field_label := label; field_required := true;
     field_initial := PNone; field_widget := widget; field_choices := choices |}.

Definition set_field_required (b : bool) (f : Field) : Field :=
  {| field_class_of := field_class_of f; field_label := field_label f;
     field_required := b; field_initial := field_initial f;
     field_widget := field_widget f; field_choices := field_choices f |}.

Definition set_field_initial (v : pyval) (f : Field) : Field :=
  {| field_class_of := field_class_of f; field_label := field_label f;
     field_required := field_required f; field_initial := v;
     field_widget := field_widget f; field_choices := field_choices f |}.

Definition set_field_widget (w : Widget) (f : Field) : Field :=
  {| field_class_of := field_class_of f; field_label := field_label f;
     field_required := field_required f; field_initial := field_initial f;
     field_widget := w; field_choices := field_choices f |}.

Definition set_field_choices (c : list (string * string)) (f : Field) : Field :=
  {| field_class_of := field_class_of f; field_label := field_label f;
     field_required := field_required f; field_initial := field_initial f;
     field_widget := field_widget f; field_choices := c |}.

(** [self.fields[name].<attribute> = ...]: the field must be there. *)
Definition update_field (name : string) (f : Field → Field)
    (fields : gmap string Field) : M (gmap string Field) :=
  do fld <- getitem name (fields !! name);
  ret (<[name := f fld]> fields).

(** ** The relationship form *)

Module DocumentTypeMetadataTypeRelationshipForm.

Definition RELATIONSHIP_TYPE_NONE : string := "none".
Definition RELATIONSHIP_TYPE_OPTIONAL : string := "optional".
Definition RELATIONSHIP_TYPE_REQUIRED : string := "required".
Definition RELATIONSHIP_CHOICES : list (string * string) :=
  [ (RELATIONSHIP_TYPE_NONE, "None");
    (RELATIONSHIP_TYPE_OPTIONAL, "Optional");
    (RELATIONSHIP_TYPE_REQUIRED, "Required") ].

(** The form's [initial] dictionary; each key may be missing. *)
Record Initial : Type := {
  main_model : option string;
  document_type : option DocumentType;
  metadata_type : option MetadataType }.

Definition empty_initial : Initial :=
  {| main_model := None; document_type := None; metadata_type := None |}.

Record kwargs : Type := {
  kw_user : option User;
  kw_initial : option Initial }.

Record t : Type := {
  _user : User;
  initial : Initial;
  fields : gmap string Field;
  initial_relationship_type : option string;
  cleaned_data : gmap string string }.

Definition base_fields : gmap string Field :=
  {[ "label" :=
       forms_CharField "Label" false (forms_TextInput {[ "readonly" := "readonly" ]});
     "relationship_type" :=
       forms_ChoiceField "Relationship"
         {| widget_class_of := RadioSelect; attrs := ∅ |} RELATIONSHIP_CHOICES ]}.

Definition get_relationship (self : t) : M RelQuery :=
  do dt <- getitem "document_type" (document_type (initial self));
  do mt <- getitem "metadata_type" (metadata_type (initial self));
  ret {| q_document_type := dt_pk dt; q_metadata_type := mt_pk mt |}.

Definition get_relationship_type (self : t) : M string :=
  do relationship <- get_relationship self;
  do found <- QuerySet_exists relationship;
  if found : bool then
    do instance <- QuerySet_get relationship;
    if row_required (inst_row instance)
    then ret RELATIONSHIP_TYPE_REQUIRED
    else ret RELATIONSHIP_TYPE_OPTIONAL
  else ret RELATIONSHIP_TYPE_NONE.

Definition __init__ (kw : kwargs) : M t :=
  do user <- getitem "_user" (kw_user kw);
  let self := {| _user := user;
                 initial := default empty_initial (kw_initial kw);
                 fields := base_fields;
                 initial_relationship_type := None;
                 cleaned_data := ∅ |} in
  match main_model (initial self) with
  | Some main =>
      do label <-
        (if bool_decide (main = "metadata_type")
         then do dt <- getitem "document_type" (document_type (initial self));
              ret (dt_label dt)
         else do mt <- getitem "metadata_type" (metadata_type (initial self));
              ret (mt_label mt));
      do fields1 <- update_field "label" (set_field_initial (PStr label)) (fields self);
      let self := {| _user := user; initial := initial self; fields := fields1;
                     initial_relationship_type := None;
                     cleaned_data := cleaned_data self |} in
      do rt <- get_relationship_type self;
      do fields2 <- update_field "relationship_type" (set_field_initial (PStr rt)) fields1;
      ret {| _user := user; initial := initial self; fields := fields2;
             initial_relationship_type := Some rt;
             cleaned_data := cleaned_data self |}
  | None => ret self
  end.

(** The form after the framework has bound and validated submitted data. *)
Definition with_cleaned_data (self : t) (cd : gmap string string) : t :=
  {| _user := _user self; initial := initial self; fields := fields self;
     initial_relationship_type := initial_relationship_type self;
     cleaned_data := cd |}.

Definition save_relationship_none (self : t) (relationship : RelQuery) : M unit :=
  do instance <- QuerySet_get relationship;
  Model_delete instance (_user self).

Definition save_relationship_optional (self : t) (relationship : RelQuery) : M unit :=
  do found <- QuerySet_exists relationship;
  if found : bool then
    do instance <- QuerySet_get relationship;
    let instance := set_required instance false in
    Model_save instance (_user self)
  else
    do dt <- getitem "document_type" (document_type (initial self));
    do mt <- getitem "metadata_type" (metadata_type (initial self));
    let relationship := DocumentTypeMetadataType dt mt required_default in
    Model_save relationship (_user self).

Definition save_relationship_required (self : t) (relationship : RelQuery) : M unit :=
  do found <- QuerySet_exists relationship;
  if found : bool then
    do instance <- QuerySet_get relationship;
    let instance := set_required instance true in
    Model_save instance (_user self)
  else
    do dt <- getitem "document_type" (document_type (initial self));
    do mt <- getitem "metadata_type" (metadata_type (initial self));
    let relationship := DocumentTypeMetadataType dt mt true in
    Model_save relationship (_user self).

(** [getattr(self, name)] restricted to the methods [save] can name. *)
Definition lookup_method (name : string) : option (t → RelQuery → M unit) :=
  if bool_decide (name = "save_relationship_none") then Some save_relationship_none
  else if bool_decide (name = "save_relationship_optional") then Some save_relationship_optional
  else if bool_decide (name = "save_relationship_required") then Some save_relationship_required
  else None.

Definition save (self : t) : M unit :=
  do relationship <- get_relationship self;
  do chosen <- getitem "relationship_type" (cleaned_data self !! "relationship_type");
  do initial_type <- getattr "initial_relationship_type" (initial_relationship_type self);
  if bool_decide (chosen ≠ initial_type) then
    do method <- getattr ("save_relationship_" +:+ chosen)
                   (lookup_method ("save_relationship_" +:+ chosen));
    method self relationship
  else ret tt.

End DocumentTypeMetadataTypeRelationshipForm.

(** ** The metadata value form *)

(** The double quote character, for messages that quote a label. *)
Definition dquote : string :=
  String (Ascii.Ascii false true false false false true false false) EmptyString.

(** [try: body except Exception as e: handler(e)]. *)
Definition try_except {A} (body : M A) (handler : exn → M A) : M A :=
  λ w, match body w with
       | (w', Ok a) => (w', Ok a)
       | (w', Raise e) => handler e w'
       end.

(** [BaseForm.clean]: the generic form-level hook, which hands back
    [cleaned_data] as the field cleaning left it. *)
Definition BaseForm_clean (cleaned_data : gmap string pyval) : M (gmap string pyval) :=
  ret cleaned_data.

Module DocumentMetadataForm.

(** The [initial] dictionary a caller passes; each key may be missing. *)
Record Initial : Type := {
  init_metadata_type : option MetadataType;
  init_document_type : option DocumentType }.

(** Of the keyword arguments only ['initial'] is read by the form's own
    code. The others go to the base form's constructor on line 32; the
    model starts where that call has returned. *)
Record kwargs : Type := {
  kw_initial : option Initial }.

(** The form object. The attributes [metadata_type] and [document_type]
    exist only when the constructor was given [initial]. *)
Record t : Type := {
  fields : gmap string Field;
  metadata_type : option MetadataType;
  document_type : option DocumentType;
  cleaned_data : gmap string pyval }.

Definition base_fields : gmap string Field :=
  {[ "metadata_type_id" :=
       forms_CharField "ID" true {| widget_class_of := HiddenInput; attrs := ∅ |};
     "metadata_type_name" :=
       forms_CharField "Name" false (forms_TextInput {[ "readonly" := "readonly" ]});
     "value" :=
       forms_CharField "Value" false (forms_TextInput {[ "class" := "metadata-value" ]});
     "update" := forms_BooleanField true "Update" false ]}.

Definition with_cleaned_data (self : t) (cd : gmap string pyval) : t :=
  {| fields := fields self; metadata_type := metadata_type self;
     document_type := document_type self; cleaned_data := cd |}.

Section collaborators.
(** Methods of [MetadataType], declared in models.py which is not among
    the sources; they are parameters of the form code. The two that
    consult the relationship table receive it. *)
Variable get_required_for : gmap nat Row → MetadataType → DocumentType → bool.
Variable get_lookup_values : MetadataType → result (list string).
Variable get_default_value : MetadataType → result string.
(** Python's [str()] of an exception object, which ['%s' % exception]
    puts into the message. *)
Variable exception_text : exn → string.
Variable validate_value :
  gmap nat Row → MetadataType → DocumentType → pyval → result pyval.

Definition call_get_required_for (mt : MetadataType) (dt : DocumentType) : M bool :=
  do_ emit (EvRequiredFor (mt_pk mt) (dt_pk dt));
  λ w, (w, Ok (get_required_for (relationships w) mt dt)).

Definition call_get_lookup_values (mt : MetadataType) : M (list string) :=
  do_ emit (EvLookupValues (mt_pk mt));
  lift (get_lookup_values mt).

Definition call_get_default_value (mt : MetadataType) : M string :=
  do_ emit (EvDefaultValue (mt_pk mt));
  lift (get_default_value mt).

Definition call_validate_value (mt : MetadataType) (dt : DocumentType)
    (value : pyval) : M pyval :=
  do_ emit (EvValidateValue (mt_pk mt) (dt_pk dt) value);
  λ w, (w, validate_value (relationships w) mt dt value).

(** The [except] branch shared by the lookup and the default block:
    show the message in a read-only text input. *)
Definition show_error (prefix : string) (exception : exn)
    (fields : gmap string Field) : M (gmap string Field) :=
  do fields1 <- update_field "value"
                  (set_field_initial (PStr (prefix +:+ exception_text exception))) fields;
  update_field "value"
    (set_field_widget (forms_TextInput {[ "readonly" := "readonly" ]})) fields1.

(** Lines 59-79: the lookup block. The new choice field replaces the
    text field before the lookup is evaluated, so the handler finds the
    choice field in place. *)
Definition lookup_block (mt : MetadataType) (required : bool)
    (fields : gmap string Field) : M (gmap string Field) :=
  match fields !! "value" with
  | None => show_error "Lookup value error: " (KeyError "value") fields
  | Some old =>
      let fields1 :=
        <["value" := forms_ChoiceField (field_label old)
                       {| widget_class_of := Select; attrs := ∅ |} []]> fields in
      try_except
        (do choices <- call_get_lookup_values mt;
         let choices := zip choices choices in
         let choices := if required then choices else ("", "------") :: choices in
         do fields2 <- update_field "value" (set_field_choices choices) fields1;
         do fields3 <- update_field "value" (set_field_required required) fields2;
         update_field "value"
           (λ f, set_field_widget
                   {| widget_class_of := widget_class_of (field_widget f);
                      attrs := <["class" := "metadata-value"]> (attrs (field_widget f)) |}
                   f)
           fields3)
        (λ exception, show_error "Lookup value error: " exception fields1)
  end.

(** Lines 81-92: the default block. *)
Definition default_block (mt : MetadataType)
    (fields : gmap string Field) : M (gmap string Field) :=
  try_except
    (do value <- call_get_default_value mt;
     update_field "value" (set_field_initial (PStr value)) fields)
    (λ exception, show_error "Default value error: " exception fields).

(** The constructor, over the [base_fields] of the class being
    instantiated. *)
Definition __init__ (cls_fields : gmap string Field) (kw : kwargs) : M t :=
  match kw_initial kw with
  | None =>
      ret {| fields := cls_fields; metadata_type := None; document_type := None;
             cleaned_data := ∅ |}
  | Some initial =>
      do mt <- getitem "metadata_type" (init_metadata_type initial);
      do dt <- getitem "document_type" (init_document_type initial);
      do required <- call_get_required_for mt dt;
      do fields1 <-
        (if required : bool
         then update_field "value" (set_field_required true) cls_fields
         else do f <- update_field "value" (set_field_required false) cls_fields;
              update_field "update" (set_field_initial (PBool false)) f);
      let required_string := if required then " (Required)" else "" in
      let shown := if negb (String.eqb (mt_label mt) "")
                   then mt_label mt else mt_name mt in
      do fields2 <- update_field "metadata_type_name"
                      (set_field_initial (PStr (shown +:+ required_string))) fields1;
      do fields3 <- update_field "metadata_type_id"
                      (set_field_initial (PInt (mt_pk mt))) fields2;
      do fields4 <-
        (if negb (String.eqb (mt_lookup mt) "")
         then lookup_block mt required fields3
         else ret fields3);
      do fields5 <-
        (if negb (String.eqb (mt_default mt) "")
         then default_block mt fields4
         else ret fields4);
      ret {| fields := fields5; metadata_type := Some mt; document_type := Some dt;
             cleaned_data := ∅ |}
  end.

Definition required_message (mt : MetadataType) : string :=
  dquote +:+ mt_label mt +:+ dquote +:+ " is required for this document type.".

Definition clean (self : t) : M (gmap string pyval) :=
  do_ (match metadata_type self with
       | Some mt =>
           do dt <- getattr "document_type" (document_type self);
           do required <- call_get_required_for mt dt;
           do missing <-
             (if required : bool
              then do value <- getitem "value" (cleaned_data self !! "value");
                   ret (negb (truthy value)
                        && negb (truthy (dict_get (cleaned_data self) "update")))
              else ret false);
           if missing : bool
           then raise (ValidationError (required_message mt))
           else ret tt
       | None => ret tt
       end);
  if truthy (dict_get (cleaned_data self) "update")
     && bool_decide (is_Some (metadata_type self))
  then
    do mt <- getattr "metadata_type" (metadata_type self);
    do dt <- getattr "document_type" (document_type self);
    do value <- call_validate_value mt dt (dict_get (cleaned_data self) "value");
    ret (<["value" := value]> (cleaned_data self))
  else ret (cleaned_data self).

End collaborators.

End DocumentMetadataForm.

(** ** The bulk remove form *)

Module DocumentMetadataRemoveForm.

Definition base_fields : gmap string Field :=
  <["update" := forms_BooleanField false "Remove" false]>
    DocumentMetadataForm.base_fields.

Section collaborators.
Variable get_required_for : gmap nat Row → MetadataType → DocumentType → bool.
Variable get_lookup_values : MetadataType → result (list string).
Variable get_default_value : MetadataType → result string.
Variable exception_text : exn → string.

Definition __init__ (kw : DocumentMetadataForm.kwargs) : M DocumentMetadataForm.t :=
  do self <- DocumentMetadataForm.__init__
               get_required_for get_lookup_values get_default_value exception_text base_fields kw;
  do _popped <- getitem "value" (DocumentMetadataForm.fields self !! "value");
  ret {| DocumentMetadataForm.fields := delete "value" (DocumentMetadataForm.fields self);
         DocumentMetadataForm.metadata_type := DocumentMetadataForm.metadata_type self;
         DocumentMetadataForm.document_type := DocumentMetadataForm.document_type self;
         DocumentMetadataForm.cleaned_data := DocumentMetadataForm.cleaned_data self |}.
End collaborators.

(** [super(forms.Form, self).clean()]: the lookup starts after
    [forms.Form], so it lands on [BaseForm.clean] and skips the parent
    class's [clean]. *)
Definition clean (self : DocumentMetadataForm.t) : M (gmap string pyval) :=
  BaseForm_clean (DocumentMetadataForm.cleaned_data self).

End DocumentMetadataRemoveForm.

(** ** The bulk add form *)

Module DocumentMetadataAddForm.

(** A queryset of metadata types, by the rows it selects. *)
Definition QuerySet : Type := list MetadataType.

(** Keyword arguments: the two the constructor pops itself and the names
    of whatever else the caller passed. *)
Record kwargs : Type := {
  kw_document_type : option DocumentType;
  kw_queryset : option QuerySet;
  kw_others : list string }.

Record t : Type := {
  metadata_type_queryset : QuerySet }.

(** The keyword parameters [forms.Form.__init__] declares. *)
Definition Form_parameters : list string :=
  [ "data"; "files"; "auto_id"; "prefix"; "initial"; "error_class";
    "label_suffix"; "empty_permitted"; "field_order";
    "use_required_attribute"; "renderer" ].

(** [forms.Form.__init__] called with the remaining keyword arguments: a
    keyword it does not declare is a [TypeError], raised when the call is
    bound and so before anything else. Only the names are kept: what the
    base constructor makes of the values of the keywords it declares is
    outside this model, which lets the call return. *)
Definition Form___init__ (names : list string) : M unit :=
  match filter (λ name, name ∉ Form_parameters) names with
  | [] => ret tt
  | name :: _ =>
      raise (TypeError ("__init__() got an unexpected keyword argument '" +:+ name +:+ "'"))
  end.

Section manager.
(** [MetadataType.objects.get_for_document_type], declared in
    managers.py which is not among the sources. *)
Variable get_for_document_type : DocumentType → QuerySet.

Definition objects_none : QuerySet := [].

Definition __init__ (kw : kwargs) : M t :=
  let '(queryset, remaining) :=
    match kw_document_type kw with
    | Some document_type =>
        (default (get_for_document_type document_type) (kw_queryset kw),
         kw_others kw)
    | None =>
        (objects_none,
         match kw_queryset kw with
         | Some _ => "queryset" :: kw_others kw
         | None => kw_others kw
         end)
    end in
  do_ Form___init__ remaining;
  ret {| metadata_type_queryset := queryset |}.
End manager.

End DocumentMetadataAddForm.

(** ** The metadata type form *)

Module MetadataTypeForm.

(** A field of the model form: one the framework derived from the model, or
    a [TemplateField] built from an initial help text. *)
Inductive ModelFormField : Type :=
| ModelField (help_text : string) (required : bool)
| TemplateField (initial_help_text : string) (required : bool).

Definition help_text_of (f : ModelFormField) : string :=
  match f with
  | ModelField h _ => h
  | TemplateField h _ => h
  end.

(** [Meta.fields]. *)
Definition Meta_fields : list string :=
  [ "name"; "label"; "default"; "lookup"; "validation"; "parser" ].

Section collaborators.
(** [MetadataLookup.get_as_help_text()], declared in classes.py which is
    not among the sources. *)
Variable lookup_context_help : string.

(** The constructor, after [forms.ModelForm.__init__] has derived
    [model_fields] from the model. *)
Definition __init__ (model_fields : gmap string ModelFormField)
    : M (gmap string ModelFormField) :=
  do old_default <- getitem "default" (model_fields !! "default");
  let fields1 :=
    <["default" := TemplateField (help_text_of old_default) false]> model_fields in
  do old_lookup <- getitem "lookup" (fields1 !! "lookup");
  ret (<["lookup" :=
          TemplateField
            (help_text_of old_lookup +:+ " Available template context variables: "
               +:+ lookup_context_help)
            false]> fields1).
End collaborators.

End MetadataTypeForm.

(** ** The relationship form collection *)

Module DocumentTypeMetadataTypeRelationshipFormSet.

(** Keyword arguments: the acting user, the initial dictionaries of the
    rows, and the ['_user'] entry of a [form_kwargs] the caller may have
    passed already. *)
Record kwargs : Type := {
  kw_user : option User;
  kw_initial : list DocumentTypeMetadataTypeRelationshipForm.Initial;
  kw_form_kwargs_user : option User }.

Record t : Type := {
  initial : list DocumentTypeMetadataTypeRelationshipForm.Initial;
  form_kwargs_user : option User }.

(** Lines 286-289: pop ['_user'], let the base class store [initial] and
    [form_kwargs], then put the user into [form_kwargs]. *)
Definition __init__ (kw : kwargs) : M t :=
  do user <- getitem "_user" (kw_user kw);
  let self := {| initial := kw_initial kw;
                 form_kwargs_user := kw_form_kwargs_user kw |} in
  ret {| initial := initial self; form_kwargs_user := Some user |}.

(** The framework's [forms] of a collection made with [extra=0] and not
    bound to submitted data: one form per initial dictionary, in order,
    each constructed with [form_kwargs] and its own [initial]. *)
Fixpoint construct_forms (form_kwargs_user : option User)
    (initials : list DocumentTypeMetadataTypeRelationshipForm.Initial)
    : M (list DocumentTypeMetadataTypeRelationshipForm.t) :=
  match initials with
  | [] => ret []
  | ini :: rest =>
      do form <- DocumentTypeMetadataTypeRelationshipForm.__init__
                   {| DocumentTypeMetadataTypeRelationshipForm.kw_user := form_kwargs_user;
                      DocumentTypeMetadataTypeRelationshipForm.kw_initial := Some ini |};
      do others <- construct_forms form_kwargs_user rest;
      ret (form :: others)
  end.

Definition forms (self : t) : M (list DocumentTypeMetadataTypeRelationshipForm.t) :=
  construct_forms (form_kwargs_user self) (initial self).

End DocumentTypeMetadataTypeRelationshipFormSet.

(** ** Iteration *)

(** [for x in xs: f(x)]: the first exception ends the loop. *)
Fixpoint for_each {A} (f : A → M unit) (xs : list A) : M unit :=
  match xs with
  | [] => ret tt
  | x :: rest => do_ f x; for_each f rest
  end.

(** Log entries that change the table, and who made them. *)
Definition is_write (e : event) : bool :=
  match e with
  | EvSave _ _ _ _ | EvDelete _ _ _ => true
  | _ => false
  end.

Definition written_by (user : User) (e : event) : Prop :=
  match e with
  | EvSave _ _ _ u | EvDelete _ _ u => u = user
  | _ => True
  end.

(** Log entries that are collaborator calls of the value form. *)
Definition is_validator_call (e : event) : bool :=
  match e with
  | EvValidateValue _ _ _ => true
  | _ => false
  end.

(** ** Notions used in the statements *)

#[global] Instance unique_pairs_dec (tbl : gmap nat Row) : Decision (unique_pairs tbl).
Proof.
  refine (cast_if (decide (map_Forall (λ k1 r1,
            map_Forall (λ k2 r2,
              row_document_type r1 = row_document_type r2 →
              row_metadata_type r1 = row_metadata_type r2 → k1 = k2) tbl) tbl)));
    unfold unique_pairs, map_Forall in *; naive_solver.
Defined.

(** The query and the row of a (document type, metadata type) pair. *)
Definition pair_query (dt : DocumentType) (mt : MetadataType) : RelQuery :=
  {| q_document_type := dt_pk dt; q_metadata_type := mt_pk mt |}.

Definition pair_row (dt : DocumentType) (mt : MetadataType) (required : bool) : Row :=
  {| row_document_type := dt_pk dt; row_metadata_type := mt_pk mt;
     row_required := required |}.

Definition no_row (q : RelQuery) (tbl : gmap nat Row) : Prop :=
  ∀ k r, tbl !! k = Some r → ¬ row_matches q r.

(** The mutation routine for a target state with a row: [optional] and
    [required] differ only in the flag they write. *)
Definition routine_for (required : bool) :
    DocumentTypeMetadataTypeRelationshipForm.t → RelQuery → M unit :=
  if required
  then DocumentTypeMetadataTypeRelationshipForm.save_relationship_required
  else DocumentTypeMetadataTypeRelationshipForm.save_relationship_optional.

Definition state_name (required : bool) : string :=
  if required
  then DocumentTypeMetadataTypeRelationshipForm.RELATIONSHIP_TYPE_REQUIRED
  else DocumentTypeMetadataTypeRelationshipForm.RELATIONSHIP_TYPE_OPTIONAL.

(** [log] entries appended to a world. *)
Definition logged (w : World) (events : list event) : World :=
  {| relationships := relationships w; log := log w ++ events |}.

(** The read-only text input the error branches install. *)
Definition readonly_input : Widget := forms_TextInput {[ "readonly" := "readonly" ]}.

(** What the lookup block leaves in the value field, given the label of the
    field it replaces and what evaluating the lookup gave. *)
Definition lookup_field (exception_text : exn → string) (label : string)
    (required : bool) (evaluated : result (list string)) : Field :=
  match evaluated with
  | Ok choices =>
      {| field_class_of := ChoiceField; field_label := label;
         field_required := required; field_initial := PNone;
         field_widget := {| widget_class_of := Select;
                            attrs := {[ "class" := "metadata-value" ]} |};
         field_choices := if required then zip choices choices
                          else ("", "------") :: zip choices choices |}
  | Raise e =>
      {| field_class_of := ChoiceField; field_label := label;
         field_required := true;
         field_initial := PStr ("Lookup value error: " +:+ exception_text e);
         field_widget := readonly_input; field_choices := [] |}
  end.

(** What the default block makes of the value field. *)
Definition default_field (exception_text : exn → string)
    (evaluated : result string) (f : Field) : Field :=
  match evaluated with
  | Ok value => set_field_initial (PStr value) f
  | Raise e =>
      set_field_widget readonly_input
        (set_field_initial (PStr ("Default value error: " +:+ exception_text e)) f)
  end.

Definition has_template (template : string) : bool := negb (String.eqb template "").

(** The fields the value form's constructor arrives at, from the class's
    fields, the required flag it read and the two template evaluations. *)
Definition built_fields (exception_text : exn → string)
    (cls_fields : gmap string Field) (required : bool)
    (mt : MetadataType) (lookup : result (list string)) (default_value : result string)
    : gmap string Field :=
  let fields1 :=
    if required then alter (set_field_required true) "value" cls_fields
    else alter (set_field_initial (PBool false)) "update"
           (alter (set_field_required false) "value" cls_fields) in
  let shown := if has_template (mt_label mt) then mt_label mt else mt_name mt in
  let fields2 :=
    alter (set_field_initial
             (PStr (shown +:+ (if required then " (Required)" else ""))))
      "metadata_type_name" fields1 in
  let fields3 := alter (set_field_initial (PInt (mt_pk mt))) "metadata_type_id" fields2 in
  let fields4 :=
    if has_template (mt_lookup mt)
    then alter (λ old, lookup_field exception_text (field_label old) required lookup)
           "value" fields3
    else fields3 in
  if has_template (mt_default mt)
  then alter (default_field exception_text default_value) "value" fields4
  else fields4.

Definition built_log (mt : MetadataType) (dt : DocumentType) : list event :=
  [EvRequiredFor (mt_pk mt) (dt_pk dt)]
  ++ (if has_template (mt_lookup mt) then [EvLookupValues (mt_pk mt)] else [])
  ++ (if has_template (mt_default mt) then [EvDefaultValue (mt_pk mt)] else []).

(** The class's fields a value form constructor can work on. *)
Definition value_form_fields (cls_fields : gmap string Field) : Prop :=
  is_Some (cls_fields !! "value") ∧ is_Some (cls_fields !! "update") ∧
  is_Some (cls_fields !! "metadata_type_name") ∧
  is_Some (cls_fields !! "metadata_type_id").

(** Python's [str.strip] and [str.lower] on ASCII text: the whitespace
    characters are the space, tab to carriage return, and the four
    separators 28 to 31. *)
Definition is_space (c : Ascii.ascii) : bool :=
  let n := Ascii.nat_of_ascii c in
  (n =? 32) || ((9 <=? n) && (n <=? 13)) || ((28 <=? n) && (n <=? 31)).

Fixpoint lstrip (s : string) : string :=
  match s with
  | String c rest => if is_space c then lstrip rest else s
  | EmptyString => EmptyString
  end.

Fixpoint rstrip (s : string) : string :=
  match s with
  | String c rest =>
      match rstrip rest with
      | EmptyString => if is_space c then EmptyString else String c EmptyString
      | kept => String c kept
      end
  | EmptyString => EmptyString
  end.

Definition strip (s : string) : string := rstrip (lstrip s).

Definition lower_char (c : Ascii.ascii) : Ascii.ascii :=
  let n := Ascii.nat_of_ascii c in
  if (65 <=? n) && (n <=? 90) then Ascii.ascii_of_nat (n + 32) else c.

Fixpoint lower (s : string) : string :=
  match s with
  | String c rest => String (lower_char c) (lower rest)
  | EmptyString => EmptyString
  end.

Fixpoint has_null_character (s : string) : bool :=
  match s with
  | String c rest => (Ascii.nat_of_ascii c =? 0) || has_null_character rest
  | EmptyString => false
  end.

(** The framework's field cleaning, which runs before [clean]: each field
    cleans its submitted text; a field whose cleaning fails contributes no
    key to [cleaned_data]. A text field strips its input and rejects a null
    character; a checkbox reads absent or empty input and any spelling of
    ['false'] as unticked; a choice field rejects a value outside its
    choices; a required field rejects an empty or unticked result. *)
Definition clean_field (f : Field) (submitted : string) : result pyval :=
  match field_class_of f with
  | BooleanField =>
      let value :=
        negb (String.eqb submitted "") && negb (String.eqb (lower submitted) "false") in
      if negb value && field_required f
      then Raise (ValidationError "This field is required.")
      else Ok (PBool value)
  | CharField =>
      let value := strip submitted in
      if String.eqb value ""
      then if field_required f
           then Raise (ValidationError "This field is required.")
           else Ok (PStr "")
      else if has_null_character value
           then Raise (ValidationError "Null characters are not allowed.")
           else Ok (PStr value)
  | cls =>
      if String.eqb submitted ""
      then if field_required f
           then Raise (ValidationError "This field is required.")
           else Ok (PStr "")
      else match cls with
           | ChoiceField =>
               if bool_decide (submitted ∈ (field_choices f).*1)
               then Ok (PStr submitted)
               else Raise (ValidationError "Select a valid choice.")
           | _ => Ok (PStr submitted)
           end
  end.

Definition Form__clean_fields (fields : gmap string Field)
    (data : gmap string string) : gmap string pyval :=
  map_imap (λ name f,
    match clean_field f (default "" (data !! name)) with
    | Ok v => Some v
    | Raise _ => None
    end) fields.

(** The second half of the value form's [clean]: the validator runs when
    the update toggle is set. *)
Definition validate_part
    (validate_value : gmap nat Row → MetadataType → DocumentType → pyval → result pyval)
    (mt : MetadataType) (dt : DocumentType)
    (cd : gmap string pyval) (w : World) : World * result (gmap string pyval) :=
  if truthy (dict_get cd "update")
  then (logged w [EvValidateValue (mt_pk mt) (dt_pk dt) (dict_get cd "value")],
        match validate_value (relationships w) mt dt (dict_get cd "value") with
        | Ok v => Ok (<["value" := v]> cd)
        | Raise e => Raise e
        end)
  else (w, Ok cd).

(** Keyword arguments carrying both objects in [initial]. *)
Definition initial_of (mt : MetadataType) (dt : DocumentType) : DocumentMetadataForm.kwargs :=
  {| DocumentMetadataForm.kw_initial :=
       Some {| DocumentMetadataForm.init_metadata_type := Some mt;
               DocumentMetadataForm.init_document_type := Some dt |} |}.

(** ** Sample data *)

Definition invoice : DocumentType := {| dt_pk := 1; dt_label := "Invoice" |}.

Definition due_date : MetadataType :=
  {| mt_pk := 2; mt_name := "due_date"; mt_label := "Due date";
     mt_default := ""; mt_lookup := "" |}.

(** A metadata type with both a lookup and a default template. *)
Definition currency : MetadataType :=
  {| mt_pk := 3; mt_name := "currency"; mt_label := "Currency";
     mt_default := "{{ base_currency }}"; mt_lookup := "{{ currencies }}" |}.

Definition admin : User := 7.

Definition empty_world : World := {| relationships := ∅; log := [] |}.

(** One optional relationship row for (invoice, due date), stored under
    key 5. *)
Definition one_row_world : World :=
  {| relationships := {[ 5 := pair_row invoice due_date false ]}; log := [] |}.

Definition relationship_kwargs : DocumentTypeMetadataTypeRelationshipForm.kwargs :=
  {| DocumentTypeMetadataTypeRelationshipForm.kw_user := Some admin;
     DocumentTypeMetadataTypeRelationshipForm.kw_initial :=
       Some {| DocumentTypeMetadataTypeRelationshipForm.main_model := Some "metadata_type";
               DocumentTypeMetadataTypeRelationshipForm.document_type := Some invoice;
               DocumentTypeMetadataTypeRelationshipForm.metadata_type := Some due_date |} |}.

(** A relationship form for (invoice, due date) whose initial state is
    [optional], bound to a chosen state. *)
Definition relationship_form (chosen : string) : DocumentTypeMetadataTypeRelationshipForm.t :=
  {| DocumentTypeMetadataTypeRelationshipForm._user := admin;
     DocumentTypeMetadataTypeRelationshipForm.initial :=
       {| DocumentTypeMetadataTypeRelationshipForm.main_model := Some "metadata_type";
          DocumentTypeMetadataTypeRelationshipForm.document_type := Some invoice;
          DocumentTypeMetadataTypeRelationshipForm.metadata_type := Some due_date |};
     DocumentTypeMetadataTypeRelationshipForm.fields :=
       DocumentTypeMetadataTypeRelationshipForm.base_fields;
     DocumentTypeMetadataTypeRelationshipForm.initial_relationship_type := Some "optional";
     DocumentTypeMetadataTypeRelationshipForm.cleaned_data :=
       {[ "relationship_type" := chosen ]} |}.


(** Collaborators for the examples: every type required or none, a
    validator that rejects empty values, templates that fail or succeed. *)
Definition always_required (_ : gmap nat Row) (_ : MetadataType) (_ : DocumentType) : bool :=
  true.
Definition never_required (_ : gmap nat Row) (_ : MetadataType) (_ : DocumentType) : bool :=
  false.
Definition reject_empty (_ : gmap nat Row) (_ : MetadataType) (_ : DocumentType)
    (value : pyval) : result pyval :=
  if truthy value then Ok value else Raise (ValidationError "Enter a valid date.").
Definition failing_lookup (_ : MetadataType) : result (list string) :=
  Raise (OtherException "Could not parse the remainder").
Definition no_lookup (_ : MetadataType) : result (list string) := Ok [].
Definition fixed_default (_ : MetadataType) : result string := Ok "EUR".

(** The text of the exceptions the examples raise: template errors, for
    which [str()] gives the message they were raised with. *)
Definition message_text (e : exn) : string :=
  match e with
  | OtherException message => message
  | _ => ""
  end.

(** Two rows for (invoice, due date): a table that breaks the invariant. *)
Definition two_row_world : World :=
  {| relationships := {[ 5 := pair_row invoice due_date false;
                         6 := pair_row invoice due_date true ]};
     log := [] |}.

(** The (invoice, due date) row and a row of another pair. *)
Definition two_pair_world : World :=
  {| relationships := {[ 5 := pair_row invoice due_date false;
                         9 := pair_row invoice currency true ]};
     log := [] |}.

Definition relationship_initial : DocumentTypeMetadataTypeRelationshipForm.Initial :=
  {| DocumentTypeMetadataTypeRelationshipForm.main_model := Some "metadata_type";
     DocumentTypeMetadataTypeRelationshipForm.document_type := Some invoice;
     DocumentTypeMetadataTypeRelationshipForm.metadata_type := Some due_date |}.

Definition formset_kwargs : DocumentTypeMetadataTypeRelationshipFormSet.kwargs :=
  {| DocumentTypeMetadataTypeRelationshipFormSet.kw_user := Some admin;
     DocumentTypeMetadataTypeRelationshipFormSet.kw_initial := [relationship_initial];
     DocumentTypeMetadataTypeRelationshipFormSet.kw_form_kwargs_user := Some 99 |}.

(** A metadata type with a default template only. *)
Definition country : MetadataType :=
  {| mt_pk := 6; mt_name := "country"; mt_label := "";
     mt_default := "{{ home_country }}"; mt_lookup := "" |}.

Definition currency_lookup (_ : MetadataType) : result (list string) :=
  Ok ["EUR"; "USD"].

(** A value form for (due date, invoice) bound to cleaned data. *)
Definition value_form (cd : gmap string pyval) : DocumentMetadataForm.t :=
  {| DocumentMetadataForm.fields := DocumentMetadataForm.base_fields;
     DocumentMetadataForm.metadata_type := Some due_date;
     DocumentMetadataForm.document_type := Some invoice;
     DocumentMetadataForm.cleaned_data := cd |}.

Definition metadata_type_model_fields : gmap string MetadataTypeForm.ModelFormField :=
  {[ "name" := MetadataTypeForm.ModelField "Name used by other apps." true;
     "label" := MetadataTypeForm.ModelField "" true;
     "default" := MetadataTypeForm.ModelField "Enter a template to render." false;
     "lookup" := MetadataTypeForm.ModelField "Enter a template to render." false;
     "validation" := MetadataTypeForm.ModelField "" false;
     "parser" := MetadataTypeForm.ModelField "" false ]}.

(** A submission that leaves the value empty and ticks the update box. *)
Definition submitted_without_value : gmap string string :=
  {[ "metadata_type_id" := "3"; "update" := "on" ]}.

(** ** Stepping through monadic code *)

Section monad_facts.
Context {A B : Type}.

Lemma bind_Ok (m : M A) (k : A → M B) w w' b :
  bind m k w = (w', Ok b) →
  ∃ w1 a, m w = (w1, Ok a) ∧ k a w1 = (w', Ok b).
Proof.
  unfold bind. destruct (m w) as [w1 [a|e]]; [|done]. eauto.
Qed.

Lemma bind_run_Ok (m : M A) (k : A → M B) w w1 a :
  m w = (w1, Ok a) → bind m k w = k a w1.
Proof. unfold bind. by intros ->. Qed.

Lemma bind_run_Raise (m : M A) (k : A → M B) w w1 e :
  m w = (w1, Raise e) → bind m k w = (w1, Raise e).
Proof. unfold bind. by intros ->. Qed.

Lemma getitem_Ok key (o : option A) w w' a :
  getitem key o w = (w', Ok a) → o = Some a ∧ w' = w.
Proof. destruct o; cbv [getitem ret raise]; intros; by simplify_eq. Qed.

Lemma getattr_Ok attr (o : option A) w w' a :
  getattr attr o w = (w', Ok a) → o = Some a ∧ w' = w.
Proof. destruct o; cbv [getattr ret raise]; intros; by simplify_eq. Qed.

Lemma ret_Ok (a a' : A) w w' : ret a w = (w', Ok a') → a' = a ∧ w' = w.
Proof. cbv [ret]. intros; by simplify_eq. Qed.
End monad_facts.

Lemma update_field_Ok name f (fields fields' : gmap string Field) w w' :
  update_field name f fields w = (w', Ok fields') →
  w' = w ∧ ∃ fld, fields !! name = Some fld ∧ fields' = <[name := f fld]> fields.
Proof.
  unfold update_field. intros (w1 & fld & Hget & Hret)%bind_Ok.
  apply getitem_Ok in Hget as [Hget ->]. apply ret_Ok in Hret as [-> ->]. eauto.
Qed.

Lemma update_field_run name f (fields : gmap string Field) fld w :
  fields !! name = Some fld →
  update_field name f fields w = (w, Ok (<[name := f fld]> fields)).
Proof. unfold update_field, bind. by intros ->. Qed.

(** ** Facts about the persistence layer *)

Section persistence_facts.
Implicit Types (q : RelQuery) (tbl : gmap nat Row) (w : World).

Lemma matching_lookup q tbl k r :
  matching q tbl !! k = Some r ↔ tbl !! k = Some r ∧ row_matches q r.
Proof. unfold matching. by rewrite map_lookup_filter_Some. Qed.

Lemma matching_empty q tbl :
  matching q tbl = ∅ ↔ ∀ k r, tbl !! k = Some r → ¬ row_matches q r.
Proof.
  rewrite map_empty. split.
  - intros Hnone k r Hk Hm.
    specialize (Hnone k). by rewrite (proj2 (matching_lookup q tbl k r)) in Hnone.
  - intros Hnone k. destruct (matching q tbl !! k) as [r|] eqn:E; [|done].
    apply matching_lookup in E as [Hk Hm]. by destruct (Hnone k r).
Qed.

Lemma matching_unique q tbl k r :
  unique_pairs tbl → tbl !! k = Some r → row_matches q r →
  matching q tbl = {[ k := r ]}.
Proof.
  intros Huniq Hk [Hdt Hmt]. apply map_eq. intros k'.
  destruct (decide (k' = k)) as [->|Hne].
  - rewrite lookup_singleton_eq. apply matching_lookup. by split.
  - rewrite lookup_singleton_ne by done.
    destruct (matching q tbl !! k') as [r'|] eqn:E; [|done].
    apply matching_lookup in E as [Hk' [Hdt' Hmt']].
    exfalso. apply Hne. eapply Huniq; eauto; congruence.
Qed.

Lemma exists_run q w :
  QuerySet_exists q w =
    ({| relationships := relationships w;
        log := log w ++ [EvExists (q_document_type q) (q_metadata_type q)] |},
     Ok (bool_decide (matching q (relationships w) ≠ ∅))).
Proof. reflexivity. Qed.

Lemma get_run_none q w :
  (∀ k r, relationships w !! k = Some r → ¬ row_matches q r) →
  QuerySet_get q w =
    ({| relationships := relationships w;
        log := log w ++ [EvGet (q_document_type q) (q_metadata_type q)] |},
     Raise DoesNotExist).
Proof.
  intros Hnone. apply matching_empty in Hnone.
  unfold QuerySet_get, bind, emit. cbn. rewrite Hnone.
  by rewrite map_to_list_empty.
Qed.

Lemma get_run_unique q w k r :
  unique_pairs (relationships w) →
  relationships w !! k = Some r → row_matches q r →
  QuerySet_get q w =
    ({| relationships := relationships w;
        log := log w ++ [EvGet (q_document_type q) (q_metadata_type q)] |},
     Ok {| inst_pk := Some k; inst_row := r |}).
Proof.
  intros Huniq Hk Hm.
  unfold QuerySet_get, bind, emit. cbn.
  rewrite (matching_unique q _ k r Huniq Hk Hm).
  by rewrite map_to_list_singleton.
Qed.

(** Whatever [get] answers, it leaves the table alone. *)
Lemma get_table q w : relationships (QuerySet_get q w).1 = relationships w.
Proof. reflexivity. Qed.

Lemma get_Ok q w w' i :
  QuerySet_get q w = (w', Ok i) →
  ∃ k, inst_pk i = Some k ∧
       relationships w !! k = Some (inst_row i) ∧ row_matches q (inst_row i) ∧
       relationships w' = relationships w.
Proof.
  unfold QuerySet_get, bind, emit. cbn. intros H.
  destruct (map_to_list (matching q (relationships w))) as [|[k r] [|? ?]] eqn:E;
    simplify_eq.
  exists k. cbn. split; [done|].
  assert ((k, r) ∈ map_to_list (matching q (relationships w))) as Hin
    by (rewrite E; apply list_elem_of_here).
  apply elem_of_map_to_list, matching_lookup in Hin as [? ?]. done.
Qed.

Lemma unique_pairs_insert_same tbl k r r' :
  unique_pairs tbl → tbl !! k = Some r →
  row_document_type r' = row_document_type r →
  row_metadata_type r' = row_metadata_type r →
  unique_pairs (<[k := r']> tbl).
Proof.
  intros Huniq Hk Hdt Hmt k1 k2 r1 r2 H1 H2 Edt Emt.
  apply lookup_insert_Some in H1 as [[<- <-]|[Hne1 H1]];
    apply lookup_insert_Some in H2 as [[<- <-]|[Hne2 H2]]; try done.
  - eapply Huniq; eauto; congruence.
  - eapply Huniq; eauto; congruence.
  - eapply Huniq; eauto.
Qed.

Lemma unique_pairs_insert_new q tbl k r :
  unique_pairs tbl → row_matches q r →
  (∀ k' r', tbl !! k' = Some r' → ¬ row_matches q r') →
  unique_pairs (<[k := r]> tbl).
Proof.
  intros Huniq [Hdt Hmt] Hnone k1 k2 r1 r2 H1 H2 Edt Emt.
  apply lookup_insert_Some in H1 as [[<- <-]|[Hne1 H1]];
    apply lookup_insert_Some in H2 as [[<- <-]|[Hne2 H2]]; try done.
  - exfalso. apply (Hnone _ _ H2). split; congruence.
  - exfalso. apply (Hnone _ _ H1). split; congruence.
  - eapply Huniq; eauto.
Qed.

Lemma unique_pairs_delete tbl k :
  unique_pairs tbl → unique_pairs (delete k tbl).
Proof.
  intros Huniq k1 k2 r1 r2 H1 H2.
  apply lookup_delete_Some in H1 as [_ H1].
  apply lookup_delete_Some in H2 as [_ H2]. by eapply Huniq.
Qed.

Lemma fresh_pk_unused tbl : tbl !! fresh (dom tbl) = None.
Proof. apply not_elem_of_dom, is_fresh. Qed.

End persistence_facts.

(** ** The relationship form: what [save] does *)

Section relationship_form.
Import DocumentTypeMetadataTypeRelationshipForm.
Implicit Types (self : t) (q : RelQuery) (w : World).

Lemma get_relationship_run self dt mt w :
  document_type (initial self) = Some dt →
  metadata_type (initial self) = Some mt →
  get_relationship self w = (w, Ok (pair_query dt mt)).
Proof. unfold get_relationship. by intros -> ->. Qed.

Lemma exists_true q tbl k r :
  tbl !! k = Some r → row_matches q r → bool_decide (matching q tbl ≠ ∅) = true.
Proof.
  intros Hk Hm. apply bool_decide_eq_true. intros Hempty.
  by eapply (proj1 (matching_empty q tbl)).
Qed.

Lemma exists_false q tbl :
  no_row q tbl → bool_decide (matching q tbl ≠ ∅) = false.
Proof.
  intros Hnone. apply bool_decide_eq_false. intros Hne. apply Hne.
  by apply matching_empty.
Qed.

Lemma row_matches_pair dt mt r :
  row_matches (pair_query dt mt) r →
  inst_row (set_required {| inst_pk := None; inst_row := r |} (row_required r)) = r ∧
  ∀ b, {| row_document_type := row_document_type r;
          row_metadata_type := row_metadata_type r;
          row_required := b |} = pair_row dt mt b.
Proof. destruct r. intros [Hdt Hmt]. cbn in *. by subst. Qed.

(** With a row in place the routine rewrites its flag under the same key. *)
Lemma routine_existing required self dt mt w k r :
  unique_pairs (relationships w) →
  relationships w !! k = Some r → row_matches (pair_query dt mt) r →
  routine_for required self (pair_query dt mt) w =
    ({| relationships := <[k := pair_row dt mt required]> (relationships w);
        log := log w ++ [EvExists (dt_pk dt) (mt_pk mt); EvGet (dt_pk dt) (mt_pk mt);
                         EvSave false k (pair_row dt mt required) (_user self)] |},
     Ok tt).
Proof.
  intros Huniq Hk Hm.
  pose proof (exists_true _ _ _ _ Hk Hm) as Hex.
  pose proof (row_matches_pair dt mt r Hm) as [_ Hrow].
  destruct required;
    unfold routine_for, save_relationship_required, save_relationship_optional, bind;
    rewrite exists_run, Hex;
    (erewrite get_run_unique; [|exact Huniq|exact Hk|exact Hm]);
    unfold Model_save; cbn; rewrite Hrow, <- !(assoc_L (++)); cbn;
    (rewrite bool_decide_eq_false_2; [done | by rewrite Hk]).
Qed.

(** Without a row the routine inserts one under an unused key. *)
Lemma routine_missing required self dt mt w :
  document_type (initial self) = Some dt →
  metadata_type (initial self) = Some mt →
  no_row (pair_query dt mt) (relationships w) →
  let k := fresh (dom (relationships w)) in
  routine_for required self (pair_query dt mt) w =
    ({| relationships := <[k := pair_row dt mt required]> (relationships w);
        log := log w ++ [EvExists (dt_pk dt) (mt_pk mt);
                         EvSave true k (pair_row dt mt required) (_user self)] |},
     Ok tt).
Proof.
  intros Hdt Hmt Hnone k.
  pose proof (exists_false _ _ Hnone) as Hex.
  destruct required;
    unfold routine_for, save_relationship_required, save_relationship_optional, bind;
    rewrite exists_run, Hex, Hdt, Hmt; cbn;
    unfold Model_save; cbn; rewrite <- !(assoc_L (++)); cbn;
    by rewrite bool_decide_eq_true_2 by apply fresh_pk_unused.
Qed.

(** [save] with a chosen state that differs from the initial one runs the
    method whose name is built from the chosen state. *)
Lemma save_changed self dt mt chosen initial_type w :
  document_type (initial self) = Some dt →
  metadata_type (initial self) = Some mt →
  cleaned_data self !! "relationship_type" = Some chosen →
  initial_relationship_type self = Some initial_type →
  chosen ≠ initial_type →
  save self w =
    match lookup_method ("save_relationship_" +:+ chosen) with
    | Some method => method self (pair_query dt mt) w
    | None => (w, Raise (AttributeError ("save_relationship_" +:+ chosen)))
    end.
Proof.
  intros Hdt Hmt Hcd Hinit Hne. unfold save, bind.
  rewrite (get_relationship_run self dt mt w Hdt Hmt), Hcd, Hinit. cbn.
  rewrite bool_decide_eq_true_2 by done.
  by destruct (lookup_method _).
Qed.

Lemma save_unchanged self dt mt chosen w :
  document_type (initial self) = Some dt →
  metadata_type (initial self) = Some mt →
  cleaned_data self !! "relationship_type" = Some chosen →
  initial_relationship_type self = Some chosen →
  save self w = (w, Ok tt).
Proof.
  intros Hdt Hmt Hcd Hinit. unfold save, bind.
  rewrite (get_relationship_run self dt mt w Hdt Hmt), Hcd, Hinit. cbn.
  by rewrite bool_decide_eq_false_2 by (intros H; by apply H).
Qed.

Lemma row_or_no_row q (tbl : gmap nat Row) :
  no_row q tbl ∨ ∃ k r, tbl !! k = Some r ∧ row_matches q r.
Proof.
  destruct (decide (matching q tbl = ∅)) as [Hempty|Hne].
  - left. exact (proj1 (matching_empty q tbl) Hempty).
  - right. apply map_choose in Hne as (k & r & Hk).
    apply matching_lookup in Hk. eauto.
Qed.

Lemma matching_insert_pair dt mt b (tbl : gmap nat Row) k :
  (∀ k' r', k' ≠ k → tbl !! k' = Some r' → ¬ row_matches (pair_query dt mt) r') →
  matching (pair_query dt mt) (<[k := pair_row dt mt b]> tbl) = {[ k := pair_row dt mt b ]}.
Proof.
  intros Hothers. apply map_eq. intros k'.
  destruct (decide (k' = k)) as [->|Hne].
  - rewrite lookup_singleton_eq. apply matching_lookup.
    rewrite lookup_insert_eq. by repeat split.
  - rewrite lookup_singleton_ne by done.
    destruct (matching _ _ !! k') as [r'|] eqn:E; [|done].
    apply matching_lookup in E as [Hk' Hm].
    rewrite lookup_insert_ne in Hk' by done. by destruct (Hothers k' r').
Qed.

Lemma none_existing self q w k r :
  unique_pairs (relationships w) →
  relationships w !! k = Some r → row_matches q r →
  save_relationship_none self q w =
    ({| relationships := delete k (relationships w);
        log := log w ++ [EvGet (q_document_type q) (q_metadata_type q);
                         EvDelete k r (_user self)] |},
     Ok tt).
Proof.
  intros Huniq Hk Hm. unfold save_relationship_none, bind.
  rewrite (get_run_unique q w k r Huniq Hk Hm). cbn.
  by rewrite <- (assoc_L (++)).
Qed.

Lemma none_missing self q w :
  no_row q (relationships w) →
  save_relationship_none self q w =
    ({| relationships := relationships w;
        log := log w ++ [EvGet (q_document_type q) (q_metadata_type q)] |},
     Raise DoesNotExist).
Proof.
  intros Hnone. unfold save_relationship_none, bind.
  by rewrite (get_run_none q w Hnone).
Qed.

Lemma lookup_method_cases chosen method :
  lookup_method ("save_relationship_" +:+ chosen) = Some method →
  (chosen = "none" ∧ method = save_relationship_none) ∨
  (chosen = "optional" ∧ method = routine_for false) ∨
  (chosen = "required" ∧ method = routine_for true).
Proof.
  unfold lookup_method. intros H.
  repeat case_bool_decide; simplify_eq;
    match goal with
    | Hname : _ +:+ chosen = _ |- _ => cbv [String.append] in Hname
    end; simplify_eq; unfold routine_for; eauto.
Qed.

End relationship_form.

Section relationship_claims.
Import DocumentTypeMetadataTypeRelationshipForm.
Implicit Types (self : t) (q : RelQuery) (w : World).

(** C1. Target state [optional] (flag false) or [required] (flag true),
    on a table with at most one row per pair. If a row exists for the
    form's (document type, metadata type) pair, the routine queries it,
    writes the flag into that same row and saves it with the acting user;
    the set of primary keys is unchanged, so no row is created. If no row
    exists, it saves exactly one new row with that flag for the pair,
    under a key that was unused, with the acting user; afterwards that
    row is the only one of the pair. [save] reaches the routine whenever
    the chosen state is the routine's and differs from the initial one. *)
Theorem save_relationship_optional_required required self dt mt w :
  document_type (initial self) = Some dt →
  metadata_type (initial self) = Some mt →
  unique_pairs (relationships w) →
  let q := pair_query dt mt in
  let row := pair_row dt mt required in
  let tbl := relationships w in
  (∀ k r, tbl !! k = Some r → row_matches q r →
     routine_for required self q w =
       ({| relationships := <[k := row]> tbl;
           log := log w ++ [EvExists (dt_pk dt) (mt_pk mt); EvGet (dt_pk dt) (mt_pk mt);
                            EvSave false k row (_user self)] |},
        Ok tt)
     ∧ dom (<[k := row]> tbl) = dom tbl
     ∧ matching q (<[k := row]> tbl) = {[ k := row ]})
  ∧ (no_row q tbl →
     ∃ k, tbl !! k = None ∧
       routine_for required self q w =
         ({| relationships := <[k := row]> tbl;
             log := log w ++ [EvExists (dt_pk dt) (mt_pk mt);
                              EvSave true k row (_user self)] |},
          Ok tt)
       ∧ matching q (<[k := row]> tbl) = {[ k := row ]})
  ∧ (∀ initial_type,
       cleaned_data self !! "relationship_type" = Some (state_name required) →
       initial_relationship_type self = Some initial_type →
       initial_type ≠ state_name required →
       save self w = routine_for required self q w).
Proof.
  intros Hdt Hmt Huniq q row tbl. split; [|split].
  - intros k r Hk Hm. split; [|split].
    + by apply routine_existing with r.
    + apply dom_insert_lookup_L. by exists r.
    + apply matching_insert_pair. intros k' r' Hne Hk' Hm'.
      apply Hne. destruct Hm as [? ?], Hm' as [? ?].
      apply (Huniq k' k r' r Hk' Hk); subst q; congruence.
  - intros Hnone. exists (fresh (dom tbl)). split; [|split].
    + apply fresh_pk_unused.
    + by apply routine_missing.
    + apply matching_insert_pair. intros k' r' _ Hk'. by apply Hnone with k'.
  - intros initial_type Hcd Hinit Hne.
    rewrite (save_changed self dt mt _ initial_type w Hdt Hmt Hcd Hinit) by done.
    by destruct required.
Qed.

(** C3. Target state [none]. With no row for the pair the routine runs
    its lookup and fails with [DoesNotExist], nothing handles it and the
    table is as before; with a row (on a table with at most one row per
    pair) that row is deleted with the acting user. [save] reaches the
    routine whenever the chosen state is [none] and differs from the
    initial one, and the error leaves [save] unhandled. *)
Theorem save_relationship_none_spec self dt mt w :
  document_type (initial self) = Some dt →
  metadata_type (initial self) = Some mt →
  let q := pair_query dt mt in
  let tbl := relationships w in
  (no_row q tbl →
     save_relationship_none self q w =
       ({| relationships := tbl; log := log w ++ [EvGet (dt_pk dt) (mt_pk mt)] |},
        Raise DoesNotExist))
  ∧ (unique_pairs tbl → ∀ k r, tbl !! k = Some r → row_matches q r →
     save_relationship_none self q w =
       ({| relationships := delete k tbl;
           log := log w ++ [EvGet (dt_pk dt) (mt_pk mt); EvDelete k r (_user self)] |},
        Ok tt))
  ∧ (∀ initial_type,
       cleaned_data self !! "relationship_type" = Some RELATIONSHIP_TYPE_NONE →
       initial_relationship_type self = Some initial_type →
       initial_type ≠ RELATIONSHIP_TYPE_NONE →
       save self w = save_relationship_none self q w).
Proof.
  intros Hdt Hmt q tbl. split; [|split].
  - intros Hnone. by apply none_missing.
  - intros Huniq k r Hk Hm. by apply none_existing.
  - intros initial_type Hcd Hinit Hne.
    by rewrite (save_changed self dt mt _ initial_type w Hdt Hmt Hcd Hinit).
Qed.

Lemma get_relationship_type_initial self self' :
  initial self = initial self' →
  get_relationship_type self = get_relationship_type self'.
Proof. unfold get_relationship_type, get_relationship. by intros ->. Qed.

(** A form built with ['main_model'] in its initial data has both objects
    of the pair and the relationship state read from the table at that
    time. *)
Lemma init_computes_initial_type kw w0 w1 form :
  __init__ kw w0 = (w1, Ok form) →
  is_Some (main_model (initial form)) →
  ∃ dt mt initial_type,
    document_type (initial form) = Some dt ∧
    metadata_type (initial form) = Some mt ∧
    initial_relationship_type form = Some initial_type ∧
    get_relationship_type form w0 = (w1, Ok initial_type).
Proof.
  unfold __init__. intros (w' & user & Huser & Hrun)%bind_Ok.
  apply getitem_Ok in Huser as [_ ->]. cbn in Hrun |- *.
  destruct (main_model (default empty_initial (kw_initial kw))) as [main|] eqn:Emain.
  2:{ apply ret_Ok in Hrun as [-> ->]. cbn. rewrite Emain. by intros [? [=]]. }
  set (ini := default empty_initial (kw_initial kw)) in *. intros _.
  apply bind_Ok in Hrun as (w' & lbl & Hlabel & Hrun).
  assert (w' = w0) as ->.
  { case_bool_decide;
      apply bind_Ok in Hlabel as (? & ? & [_ ->]%getitem_Ok & [_ ->]%ret_Ok); done. }
  apply bind_Ok in Hrun as (w' & fields1 & [-> _]%update_field_Ok & Hrun).
  apply bind_Ok in Hrun as (w' & rt & Hrt & Hrun).
  apply bind_Ok in Hrun as (w'' & fields2 & [-> _]%update_field_Ok & Hrun).
  apply ret_Ok in Hrun as [-> ->]. cbn.
  pose proof Hrt as Hrt'. unfold get_relationship_type in Hrt'.
  apply bind_Ok in Hrt' as (? & q & Hq & _). unfold get_relationship in Hq.
  apply bind_Ok in Hq as (? & dt & [Hdt ->]%getitem_Ok & Hq).
  apply bind_Ok in Hq as (? & mt & [Hmt ->]%getitem_Ok & _).
  exists dt, mt, rt. repeat split; [done..|exact Hrt].
Qed.

(** C4. A form built with ['main_model'] in its initial data carries the
    relationship state read from the table at construction. If the chosen
    state equals it, [save] returns with the world untouched: no row
    changes and no persistence call is logged. Otherwise [save] is
    exactly the run of the one routine named after the chosen state. *)
Theorem save_noop_or_dispatch kw w0 w1 form cd chosen w :
  __init__ kw w0 = (w1, Ok form) →
  is_Some (main_model (initial form)) →
  cd !! "relationship_type" = Some chosen →
  let self := with_cleaned_data form cd in
  ∃ initial_type q,
    get_relationship_type form w0 = (w1, Ok initial_type) ∧
    initial_relationship_type self = Some initial_type ∧
    get_relationship self w = (w, Ok q) ∧
    (chosen = initial_type → save self w = (w, Ok tt)) ∧
    (chosen ≠ initial_type →
       (chosen = RELATIONSHIP_TYPE_NONE →
          save self w = save_relationship_none self q w) ∧
       (chosen = RELATIONSHIP_TYPE_OPTIONAL →
          save self w = save_relationship_optional self q w) ∧
       (chosen = RELATIONSHIP_TYPE_REQUIRED →
          save self w = save_relationship_required self q w)).
Proof.
  intros Hinit Hmain Hcd self.
  destruct (init_computes_initial_type kw w0 w1 form Hinit Hmain)
    as (dt & mt & initial_type & Hdt & Hmt & Hit & Hrt).
  exists initial_type, (pair_query dt mt).
  split; [done|]. split; [done|]. split; [by apply get_relationship_run|].
  split.
  - intros ->. by apply (save_unchanged self dt mt initial_type).
  - intros Hne.
    pose proof (save_changed self dt mt chosen initial_type w Hdt Hmt Hcd Hit Hne)
      as Hsave.
    repeat split; intros ->; exact Hsave.
Qed.

(** C6. On a table with at most one row per pair, whatever [save] does
    (including when it fails) leaves at most one row per pair. The table
    is either unchanged, or gained one row for the form's pair under an
    unused key on the branch where the pair had no row, or had the pair's
    existing row deleted or rewritten in place. *)
Theorem save_preserves_unique_pairs self w :
  unique_pairs (relationships w) →
  let tbl := relationships w in
  let tbl' := relationships (save self w).1 in
  unique_pairs tbl' ∧
  (tbl' = tbl ∨
   ∃ q, get_relationship self w = (w, Ok q) ∧
     ((no_row q tbl ∧
       ∃ k row, tbl !! k = None ∧ row_matches q row ∧ tbl' = <[k := row]> tbl)
      ∨ (∃ k r, tbl !! k = Some r ∧ row_matches q r ∧
           (tbl' = delete k tbl ∨
            ∃ row, row_matches q row ∧ tbl' = <[k := row]> tbl)))).
Proof.
  intros Huniq tbl tbl'. subst tbl'.
  destruct (document_type (initial self)) as [dt|] eqn:Hdt;
    [|unfold save, get_relationship, bind; rewrite Hdt; cbn; auto].
  destruct (metadata_type (initial self)) as [mt|] eqn:Hmt;
    [|unfold save, get_relationship, bind; rewrite Hdt, Hmt; cbn; auto].
  pose proof (get_relationship_run self dt mt w Hdt Hmt) as Hq.
  destruct (cleaned_data self !! "relationship_type") as [chosen|] eqn:Hcd;
    [|unfold save, bind; rewrite Hq, Hcd; cbn; auto].
  destruct (initial_relationship_type self) as [initial_type|] eqn:Hit;
    [|unfold save, bind; rewrite Hq, Hcd, Hit; cbn; auto].
  destruct (decide (chosen = initial_type)) as [->|Hne].
  { rewrite (save_unchanged self dt mt initial_type w) by done. auto. }
  rewrite (save_changed self dt mt chosen initial_type w) by done.
  destruct (lookup_method _) as [method|] eqn:Hmethod; [|auto].
  destruct (row_or_no_row (pair_query dt mt) tbl) as [Hnone|(k & r & Hk & Hm)];
    apply lookup_method_cases in Hmethod
      as [[_ ->]|[[_ ->]|[_ ->]]].
  - rewrite none_missing by done. auto.
  - rewrite (routine_missing false) by done. cbn. split.
    + by apply (unique_pairs_insert_new (pair_query dt mt)).
    + right. eexists. split; [done|]. left. split; [done|].
      exists (fresh (dom tbl)), (pair_row dt mt false).
      split; [apply fresh_pk_unused|]. by repeat split.
  - rewrite (routine_missing true) by done. cbn. split.
    + by apply (unique_pairs_insert_new (pair_query dt mt)).
    + right. eexists. split; [done|]. left. split; [done|].
      exists (fresh (dom tbl)), (pair_row dt mt true).
      split; [apply fresh_pk_unused|]. by repeat split.
  - rewrite (none_existing self _ w k r) by done. cbn. split.
    + by apply unique_pairs_delete.
    + right. eexists. split; [done|]. right. exists k, r. auto.
  - rewrite (routine_existing false self dt mt w k r) by done. cbn.
    destruct Hm as [Hrdt Hrmt]. split.
    + by apply (unique_pairs_insert_same _ k r).
    + right. eexists. split; [done|]. right. exists k, r.
      repeat split; [done..|]. right.
      eexists. split; [|reflexivity]. by repeat split.
  - rewrite (routine_existing true self dt mt w k r) by done. cbn.
    destruct Hm as [Hrdt Hrmt]. split.
    + by apply (unique_pairs_insert_same _ k r).
    + right. eexists. split; [done|]. right. exists k, r.
      repeat split; [done..|]. right.
      eexists. split; [|reflexivity]. by repeat split.
Qed.

End relationship_claims.

(** ** The value form: running the constructor and [clean] *)

Lemma update_field_alter name f (fields : gmap string Field) w :
  is_Some (fields !! name) →
  update_field name f fields w = (w, Ok (alter f name fields)).
Proof.
  intros [fld Hfld]. rewrite (update_field_run name f fields fld w Hfld).
  by rewrite (alter_alt_Some f fields name fld Hfld).
Qed.

Lemma alter_is_Some (f : Field → Field) (fields : gmap string Field) i j :
  is_Some (alter f i fields !! j) ↔ is_Some (fields !! j).
Proof. apply lookup_alter_is_Some. Qed.

Section value_form.
Import DocumentMetadataForm.
Variable get_required_for : gmap nat Row → MetadataType → DocumentType → bool.
Variable get_lookup_values : MetadataType → result (list string).
Variable get_default_value : MetadataType → result string.
Variable exception_text : exn → string.
Variable validate_value :
  gmap nat Row → MetadataType → DocumentType → pyval → result pyval.
Implicit Types (fields : gmap string Field) (w : World).

Lemma show_error_run prefix e fields w :
  is_Some (fields !! "value") →
  show_error exception_text prefix e fields w =
    (w, Ok (alter (λ f, set_field_widget readonly_input
                          (set_field_initial (PStr (prefix +:+ exception_text e)) f))
              "value" fields)).
Proof.
  intros Hvalue. unfold show_error.
  rewrite (bind_run_Ok _ _ w w _ (update_field_alter _ _ fields w Hvalue)).
  rewrite update_field_alter by by apply alter_is_Some.
  by rewrite alter_alter_eq.
Qed.

Lemma lookup_block_run mt required fields w :
  is_Some (fields !! "value") →
  lookup_block get_lookup_values exception_text mt required fields w =
    (logged w [EvLookupValues (mt_pk mt)],
     Ok (alter (λ old, lookup_field exception_text (field_label old) required
                         (get_lookup_values mt))
           "value" fields)).
Proof.
  intros [old Hold]. unfold lookup_block. rewrite Hold.
  rewrite (alter_alt_Some _ fields "value" old Hold).
  unfold try_except, call_get_lookup_values, bind, emit, lift. cbn.
  destruct (get_lookup_values mt) as [choices|e]; cbn.
  - repeat (erewrite update_field_run by apply lookup_insert_eq; cbn).
    by rewrite !insert_insert_eq.
  - rewrite show_error_run by (rewrite lookup_insert_eq; eauto).
    unfold logged. do 2 f_equal.
    rewrite (alter_alt_Some _ _ "value" _ (lookup_insert_eq _ _ _)).
    by rewrite insert_insert_eq.
Qed.

Lemma default_block_run mt fields w :
  is_Some (fields !! "value") →
  default_block get_default_value exception_text mt fields w =
    (logged w [EvDefaultValue (mt_pk mt)],
     Ok (alter (default_field exception_text (get_default_value mt)) "value" fields)).
Proof.
  intros Hvalue. unfold default_block, try_except, call_get_default_value,
    bind, emit, lift. cbn.
  destruct (get_default_value mt) as [value|e]; cbn.
  - by rewrite update_field_alter.
  - by rewrite show_error_run.
Qed.

Lemma logged_logged w a b : logged (logged w a) b = logged w (a ++ b).
Proof. unfold logged. cbn. by rewrite (assoc_L (++)). Qed.

Lemma logged_nil w : logged w [] = w.
Proof. destruct w. unfold logged. cbn. by rewrite (right_id_L [] (++)). Qed.

Lemma call_get_required_for_run mt dt w :
  call_get_required_for get_required_for mt dt w =
    (logged w [EvRequiredFor (mt_pk mt) (dt_pk dt)],
     Ok (get_required_for (relationships w) mt dt)).
Proof. reflexivity. Qed.

Lemma built_fields_is_Some cls required mt lookup default_value name :
  is_Some (built_fields exception_text cls required mt lookup default_value !! name) ↔
  is_Some (cls !! name).
Proof.
  unfold built_fields.
  repeat (first [rewrite alter_is_Some | case_match]); done.
Qed.

(** The constructor given both objects in [initial]. *)
Lemma init_run cls mt dt w :
  value_form_fields cls →
  __init__ get_required_for get_lookup_values get_default_value exception_text cls
    {| kw_initial := Some {| init_metadata_type := Some mt;
                             init_document_type := Some dt |} |} w =
    (logged w (built_log mt dt),
     Ok {| fields := built_fields exception_text cls (get_required_for (relationships w) mt dt) mt
                       (get_lookup_values mt) (get_default_value mt);
           metadata_type := Some mt; document_type := Some dt;
           cleaned_data := ∅ |}).
Proof.
  intros (Hvalue & Hupdate & Hname & Hid).
  unfold __init__. cbn [kw_initial init_metadata_type init_document_type getitem].
  change (bind (ret mt) ?k) with (k mt). cbn beta.
  change (bind (ret dt) ?k) with (k dt). cbn beta.
  rewrite (bind_run_Ok _ _ _ _ _ (call_get_required_for_run mt dt w)).
  set (required := get_required_for (relationships w) mt dt).
  set (w1 := logged w _).
  unfold built_fields, built_log, has_template.
  assert ((if required
           then update_field "value" (set_field_required true) cls
           else do f <- update_field "value" (set_field_required false) cls;
                update_field "update" (set_field_initial (PBool false)) f) w1 =
          (w1, Ok (if required
                   then alter (set_field_required true) "value" cls
                   else alter (set_field_initial (PBool false)) "update"
                          (alter (set_field_required false) "value" cls))))
    as Hfirst.
  { destruct required.
    - by apply update_field_alter.
    - erewrite bind_run_Ok by by apply update_field_alter.
      apply update_field_alter. by rewrite alter_is_Some. }
  rewrite (bind_run_Ok _ _ _ _ _ Hfirst). clear Hfirst.
  set (fields1 := if required then alter _ _ _ else _).
  assert (∀ name, is_Some (fields1 !! name) ↔ is_Some (cls !! name)) as H1.
  { intros name. subst fields1. destruct required; by rewrite !alter_is_Some. }
  erewrite bind_run_Ok by (apply update_field_alter; by rewrite H1).
  erewrite bind_run_Ok
    by (apply update_field_alter; by rewrite alter_is_Some, H1).
  destruct (negb (String.eqb (mt_lookup mt) "")).
  - erewrite bind_run_Ok
      by (apply lookup_block_run; by rewrite !alter_is_Some, H1).
    destruct (negb (String.eqb (mt_default mt) "")).
    + erewrite bind_run_Ok
        by (apply default_block_run; by rewrite !alter_is_Some, H1).
      subst w1. by rewrite !logged_logged.
    + subst w1. by rewrite !logged_logged.
  - change (bind (ret ?a) ?k) with (k a). cbn beta.
    destruct (negb (String.eqb (mt_default mt) "")).
    + erewrite bind_run_Ok
        by (apply default_block_run; by rewrite !alter_is_Some, H1).
      subst w1. by rewrite !logged_logged.
    + done.
Qed.

Lemma built_fields_update cls required mt lookup default_value :
  built_fields exception_text cls required mt lookup default_value !! "update" =
    (if required then id else set_field_initial (PBool false)) <$> cls !! "update".
Proof.
  unfold built_fields.
  destruct (has_template (mt_default mt)), (has_template (mt_lookup mt)), required;
    rewrite ?(lookup_alter_ne _ _ "value" "update"),
      ?(lookup_alter_ne _ _ "metadata_type_id" "update"),
      ?(lookup_alter_ne _ _ "metadata_type_name" "update"),
      ?(lookup_alter_ne _ _ "value" "update"), ?lookup_alter_eq,
      ?(lookup_alter_ne _ _ "value" "update") by done;
    by destruct (cls !! "update").
Qed.

Lemma built_fields_value cls required mt lookup default_value :
  built_fields exception_text cls required mt lookup default_value !! "value" =
    (λ v0,
       let v1 := set_field_required required v0 in
       let v2 := if has_template (mt_lookup mt)
                 then lookup_field exception_text (field_label v1) required lookup else v1 in
       if has_template (mt_default mt) then default_field exception_text default_value v2 else v2)
    <$> cls !! "value".
Proof.
  unfold built_fields.
  destruct (has_template (mt_default mt)), (has_template (mt_lookup mt)), required;
    rewrite ?lookup_alter_eq, ?(lookup_alter_ne _ _ "metadata_type_id" "value"),
      ?(lookup_alter_ne _ _ "metadata_type_name" "value"),
      ?(lookup_alter_ne _ _ "update" "value"), ?lookup_alter_eq by done;
    by destruct (cls !! "value").
Qed.

Lemma base_fields_ok : value_form_fields base_fields.
Proof. by repeat split; eexists. Qed.

Lemma remove_base_fields_ok : value_form_fields DocumentMetadataRemoveForm.base_fields.
Proof. by repeat split; eexists. Qed.

(** [clean] on a form that carries no metadata type. *)
Lemma clean_no_metadata_type self w :
  metadata_type self = None →
  clean get_required_for validate_value self w = (w, Ok (cleaned_data self)).
Proof.
  intros Hnone. unfold clean. rewrite Hnone.
  change (bind (ret tt) ?k) with (k tt). cbn beta.
  by rewrite andb_false_r.
Qed.

(** [clean] on a form that carries its metadata type and document type. *)
Lemma clean_run self mt dt w :
  metadata_type self = Some mt → document_type self = Some dt →
  let cd := cleaned_data self in
  let w1 := logged w [EvRequiredFor (mt_pk mt) (dt_pk dt)] in
  clean get_required_for validate_value self w =
    if get_required_for (relationships w) mt dt
    then match cd !! "value" with
         | None => (w1, Raise (KeyError "value"))
         | Some value =>
             if negb (truthy value) && negb (truthy (dict_get cd "update"))
             then (w1, Raise (ValidationError (required_message mt)))
             else validate_part validate_value mt dt cd w1
         end
    else validate_part validate_value mt dt cd w1.
Proof.
  intros Hmt Hdt cd w1. subst cd w1.
  unfold clean, validate_part, bind, call_get_required_for, call_validate_value,
    emit, logged.
  rewrite Hmt, Hdt. cbn.
  destruct (get_required_for (relationships w) mt dt); cbn.
  - destruct (cleaned_data self !! "value") as [value|]; cbn; [|done].
    destruct (negb (truthy value) && negb (truthy (dict_get _ "update")));
      cbn; [done|].
    destruct (truthy (dict_get _ "update")); cbn; [|done].
    by destruct (validate_value _ _ _ _).
  - destruct (truthy (dict_get _ "update")); cbn; [|done].
    by destruct (validate_value _ _ _ _).
Qed.

End value_form.

(** ** The value form and the bulk remove form: the claims *)

Section value_form_claims.
Import DocumentMetadataForm.
Variable get_required_for : gmap nat Row → MetadataType → DocumentType → bool.
Variable get_lookup_values : MetadataType → result (list string).
Variable get_default_value : MetadataType → result string.
Variable exception_text : exn → string.
Variable validate_value :
  gmap nat Row → MetadataType → DocumentType → pyval → result pyval.
Implicit Types (w : World) (cd : gmap string pyval).

(** In a required form, a [cleaned_data] without the ['value'] key makes
    [clean] fail on the subscript, before the required-value error. *)
Lemma clean_required_missing_key self mt dt w :
  metadata_type self = Some mt → document_type self = Some dt →
  get_required_for (relationships w) mt dt = true →
  cleaned_data self !! "value" = None →
  clean get_required_for validate_value self w =
    (logged w [EvRequiredFor (mt_pk mt) (dt_pk dt)], Raise (KeyError "value")).
Proof.
  intros Hmt Hdt Hreq Hkey.
  rewrite (clean_run _ _ self mt dt w Hmt Hdt). cbn zeta. by rewrite Hreq, Hkey.
Qed.

(** In a required form, a ['value'] key holding a falsy value with the
    update toggle unset gives the required-value error. *)
Lemma clean_required_empty_value self mt dt w value :
  metadata_type self = Some mt → document_type self = Some dt →
  get_required_for (relationships w) mt dt = true →
  cleaned_data self !! "value" = Some value → truthy value = false →
  truthy (dict_get (cleaned_data self) "update") = false →
  clean get_required_for validate_value self w =
    (logged w [EvRequiredFor (mt_pk mt) (dt_pk dt)],
     Raise (ValidationError (required_message mt))).
Proof.
  intros Hmt Hdt Hreq Hkey Hvalue Hupdate.
  rewrite (clean_run _ _ self mt dt w Hmt Hdt). cbn zeta.
  by rewrite Hreq, Hkey, Hvalue, Hupdate.
Qed.

(** C10. A value form constructed without initial data carries neither a
    metadata type nor a document type, and its [clean] returns the
    cleaned data as submitted, whatever the update toggle says, leaving
    the world as it was: no required-value query and no validator call
    is logged. *)
Theorem clean_without_initial cd w0 w :
  ∃ form,
    __init__ get_required_for get_lookup_values get_default_value exception_text base_fields
      {| kw_initial := None |} w0 = (w0, Ok form) ∧
    metadata_type form = None ∧ document_type form = None ∧
    clean get_required_for validate_value (with_cleaned_data form cd) w = (w, Ok cd).
Proof.
  eexists. split; [reflexivity|]. split; [done|]. split; [done|].
  by apply clean_no_metadata_type.
Qed.

(** C5, as the code has it. When the metadata type has a lookup template
    and evaluating it raises, the constructor still returns a form. Its
    value field is the choice field that replaced the text field, with a
    read-only text input as widget. Its initial content is the message
    prefixed ['Lookup value error: '] when the metadata type has no
    default template; with a default template the default block then
    replaces it by the evaluated default or by the message prefixed
    ['Default value error: ']. After the prefix a message carries the
    text [str()] gives for the exception that was raised. *)
Theorem lookup_failure_shown mt dt e w0 :
  mt_lookup mt ≠ "" →
  get_lookup_values mt = Raise e →
  ∃ form f,
    __init__ get_required_for get_lookup_values get_default_value exception_text base_fields
      (initial_of mt dt) w0 = (logged w0 (built_log mt dt), Ok form) ∧
    fields form !! "value" = Some f ∧
    field_class_of f = ChoiceField ∧
    field_widget f = readonly_input ∧
    field_initial f =
      if has_template (mt_default mt)
      then match get_default_value mt with
           | Ok value => PStr value
           | Raise e' => PStr ("Default value error: " +:+ exception_text e')
           end
      else PStr ("Lookup value error: " +:+ exception_text e).
Proof.
  intros Hlookup Hraise.
  eexists _, _. split; [apply init_run, base_fields_ok|]. cbn [fields].
  rewrite built_fields_value, Hraise.
  assert (has_template (mt_lookup mt) = true) as ->.
  { unfold has_template. apply negb_true_iff, String.eqb_neq. done. }
  split; [reflexivity|].
  destruct (has_template (mt_default mt)); [|done].
  by destruct (get_default_value mt).
Qed.

(** C7, as the code has it. A value form built for a metadata type that
    is not required for its document type has its update toggle initially
    unset. At [clean] time, with the type still not required: if the
    update toggle is unset, [clean] returns the cleaned data unchanged,
    whether or not a value was submitted; if the update toggle is set,
    the value goes through the validator and [clean] fails exactly when
    the validator does. *)
Theorem optional_value_form mt dt w0 :
  get_required_for (relationships w0) mt dt = false →
  ∃ form u,
    __init__ get_required_for get_lookup_values get_default_value exception_text base_fields
      (initial_of mt dt) w0 = (logged w0 (built_log mt dt), Ok form) ∧
    fields form !! "update" = Some u ∧ field_initial u = PBool false ∧
    ∀ cd w,
      get_required_for (relationships w) mt dt = false →
      let self := with_cleaned_data form cd in
      let w1 := logged w [EvRequiredFor (mt_pk mt) (dt_pk dt)] in
      (truthy (dict_get cd "update") = false →
         clean get_required_for validate_value self w = (w1, Ok cd)) ∧
      (truthy (dict_get cd "update") = true →
         clean get_required_for validate_value self w =
           (logged w1 [EvValidateValue (mt_pk mt) (dt_pk dt) (dict_get cd "value")],
            match validate_value (relationships w) mt dt (dict_get cd "value") with
            | Ok v => Ok (<["value" := v]> cd)
            | Raise e => Raise e
            end)).
Proof.
  intros Hreq.
  eexists _, _. split; [apply init_run, base_fields_ok|]. cbn [fields].
  rewrite built_fields_update, Hreq. split; [reflexivity|]. split; [done|].
  intros cd w Hreq'.
  erewrite (clean_run _ _ _ mt dt w) by reflexivity. cbn zeta.
  rewrite Hreq'. unfold validate_part. cbn [cleaned_data with_cleaned_data].
  by split; intros ->.
Qed.

(** C8. The bulk remove form's constructor returns a form whenever
    [initial] is absent or carries both objects. Whatever form it
    returns has no value field, has an update toggle whose initial value
    is false, and its [clean] hands back the cleaned data with the world
    untouched: no required-value query and no validator call, also where
    the parent's [clean] would have raised. *)
Theorem remove_form_spec kw w0 :
  ((kw_initial kw = None ∨
    ∃ mt dt, kw_initial kw = Some {| init_metadata_type := Some mt;
                                     init_document_type := Some dt |}) →
   ∃ w1 form,
     DocumentMetadataRemoveForm.__init__
       get_required_for get_lookup_values get_default_value exception_text kw w0 = (w1, Ok form))
  ∧
  (∀ w1 form,
     DocumentMetadataRemoveForm.__init__
       get_required_for get_lookup_values get_default_value exception_text kw w0 = (w1, Ok form) →
     fields form !! "value" = None ∧
     (∃ u, fields form !! "update" = Some u ∧ field_initial u = PBool false) ∧
     ∀ cd w,
       DocumentMetadataRemoveForm.clean (with_cleaned_data form cd) w = (w, Ok cd)).
Proof.
  assert (∀ w1 form,
    DocumentMetadataRemoveForm.__init__
      get_required_for get_lookup_values get_default_value exception_text kw w0 = (w1, Ok form) →
    ∃ parent, fields form = delete "value" parent ∧
      ∃ u, parent !! "update" = Some u ∧ field_initial u = PBool false) as Hshape.
  { intros w1 form. unfold DocumentMetadataRemoveForm.__init__.
    intros (w' & self & Hparent & Hrest)%bind_Ok.
    apply bind_Ok in Hrest as (w'' & popped & _ & Hret).
    apply ret_Ok in Hret as [-> _]. cbn [fields].
    exists (fields self). split; [done|].
    destruct kw as [[[[mt|] [dt|]]|]]; try done.
    - rewrite init_run in Hparent by apply remove_base_fields_ok.
      injection Hparent as _ <-. cbn [fields].
      rewrite built_fields_update. by destruct (get_required_for _ _ _); eexists.
    - injection Hparent as _ <-. by eexists. }
  split.
  - intros [Hnone|(mt & dt & Hsome)]; destruct kw as [ini]; cbn in *; subst ini;
      unfold DocumentMetadataRemoveForm.__init__.
    + by eexists _, _.
    + erewrite bind_run_Ok by (apply init_run, remove_base_fields_ok).
      cbn [fields].
      pose proof (proj2 (built_fields_is_Some exception_text DocumentMetadataRemoveForm.base_fields
        (get_required_for (relationships w0) mt dt) mt (get_lookup_values mt)
        (get_default_value mt) "value") (ltac:(by eexists))) as [v Hv].
      rewrite Hv. by eexists _, _.
  - intros w1 form Hinit.
    destruct (Hshape w1 form Hinit) as (parent & -> & u & Hu & Hfalse).
    split; [apply lookup_delete_eq|]. split.
    + exists u. by rewrite lookup_delete_ne.
    + done.
Qed.

End value_form_claims.

(** ** The bulk add form *)

Section add_form.
Import DocumentMetadataAddForm.
Variable get_for_document_type : DocumentType → QuerySet.

Lemma Form_init_Ok names w w' :
  Form___init__ names w = (w', Ok tt) →
  w' = w ∧ filter (λ name, name ∉ Form_parameters) names = [].
Proof.
  unfold Form___init__. destruct (filter _ names); cbv [ret raise]; intros;
    by simplify_eq.
Qed.

(** Whenever the constructor returns: without a document type the
    selectable set is empty and no queryset argument was passed; with one
    it is the supplied queryset, or else the metadata types of that
    document type. *)
Lemma add_form_queryset kw w w' form :
  __init__ get_for_document_type kw w = (w', Ok form) →
  match kw_document_type kw with
  | None => metadata_type_queryset form = [] ∧ kw_queryset kw = None
  | Some dt =>
      metadata_type_queryset form =
        default (get_for_document_type dt) (kw_queryset kw)
  end.
Proof.
  unfold __init__. destruct (kw_document_type kw) as [dt|].
  - intros (? & [] & _ & [-> _]%ret_Ok)%bind_Ok. done.
  - intros (? & [] & [_ Hnames]%Form_init_Ok & [-> _]%ret_Ok)%bind_Ok.
    split; [done|]. destruct (kw_queryset kw); [|done].
    rewrite filter_cons_True in Hnames; [done|].
    unfold Form_parameters. set_solver.
Qed.

(** The constructor returns when the caller passes only keywords the base
    form declares, and a queryset only together with a document type. *)
Lemma add_form_returns kw w :
  Forall (λ name, name ∈ Form_parameters) (kw_others kw) →
  (kw_document_type kw = None → kw_queryset kw = None) →
  ∃ form, __init__ get_for_document_type kw w = (w, Ok form).
Proof.
  intros Hnames Hqs. unfold __init__.
  assert (filter (λ name, name ∉ Form_parameters) (kw_others kw) = []) as Hnone.
  { induction Hnames as [|name names Hname _ IH]; [done|].
    by rewrite filter_cons_False by by intros ?. }
  destruct (kw_document_type kw) as [dt|].
  - unfold bind, Form___init__. rewrite Hnone. by eexists.
  - rewrite (Hqs eq_refl). unfold bind, Form___init__. rewrite Hnone. by eexists.
Qed.

End add_form.

(** ** Worked examples *)

Lemma one_row_world_unique : unique_pairs (relationships one_row_world).
Proof. apply (bool_decide_unpack _). vm_compute. exact I. Defined.

(** Initial state [optional], target [required]: the stored row has its flag
    flipped in place by the acting user. *)
Lemma save_relationship_optional_required_witness :
  DocumentTypeMetadataTypeRelationshipForm.save
    (relationship_form "required") one_row_world =
    ({| relationships := <[5 := pair_row invoice due_date true]>
                           (relationships one_row_world);
        log := [EvExists 1 2; EvGet 1 2;
                EvSave false 5 (pair_row invoice due_date true) admin] |},
     Ok tt).
Proof.
  destruct (save_relationship_optional_required true (relationship_form "required")
              invoice due_date one_row_world eq_refl eq_refl one_row_world_unique)
    as (Hexisting & _ & Hsave).
  rewrite (Hsave "optional" eq_refl eq_refl ltac:(discriminate)).
  destruct (Hexisting 5 (pair_row invoice due_date false) eq_refl (conj eq_refl eq_refl))
    as [Hrun _].
  exact Hrun.
Defined.

(** Initial state [optional], target [none]: the stored row is deleted by
    the acting user. *)
Lemma save_relationship_none_witness :
  DocumentTypeMetadataTypeRelationshipForm.save
    (relationship_form "none") one_row_world =
    ({| relationships := delete 5 (relationships one_row_world);
        log := [EvGet 1 2; EvDelete 5 (pair_row invoice due_date false) admin] |},
     Ok tt).
Proof.
  destruct (save_relationship_none_spec (relationship_form "none")
              invoice due_date one_row_world eq_refl eq_refl)
    as (_ & Hexisting & Hsave).
  rewrite (Hsave "optional" eq_refl eq_refl ltac:(discriminate)).
  exact (Hexisting one_row_world_unique 5 (pair_row invoice due_date false)
           eq_refl (conj eq_refl eq_refl)).
Defined.

(** The form built on the one-row table starts as [optional]; choosing
    [optional] again leaves an arbitrary later world untouched. *)
Lemma save_noop_or_dispatch_witness :
  ∃ w1 form,
    DocumentTypeMetadataTypeRelationshipForm.__init__ relationship_kwargs one_row_world
      = (w1, Ok form) ∧
    DocumentTypeMetadataTypeRelationshipForm.initial_relationship_type form
      = Some "optional" ∧
    DocumentTypeMetadataTypeRelationshipForm.save
      (DocumentTypeMetadataTypeRelationshipForm.with_cleaned_data form
         {[ "relationship_type" := "optional" ]}) empty_world = (empty_world, Ok tt).
Proof.
  eexists _, _. split; [vm_compute; reflexivity|]. split; [reflexivity|].
  match goal with
  | |- DocumentTypeMetadataTypeRelationshipForm.save
         (DocumentTypeMetadataTypeRelationshipForm.with_cleaned_data ?form ?cd) _ = _ =>
      destruct (save_noop_or_dispatch relationship_kwargs one_row_world
                  (logged one_row_world [EvExists 1 2; EvGet 1 2])
                  form cd "optional" empty_world)
        as (initial_type & q & Hrt & Hit & Hq & Hsame & _)
  end.
  - vm_compute. reflexivity.
  - by eexists.
  - reflexivity.
  - injection Hit as <-. exact (Hsame eq_refl).
Defined.

(** Target [required] on the one-row table: the invariant holds
    afterwards. *)
Lemma save_preserves_unique_pairs_witness :
  unique_pairs (relationships
    (DocumentTypeMetadataTypeRelationshipForm.save
       (relationship_form "required") one_row_world).1).
Proof.
  exact (proj1 (save_preserves_unique_pairs (relationship_form "required")
                  one_row_world one_row_world_unique)).
Defined.

(** A lookup that raises, no default template: the message is shown. *)
Lemma lookup_failure_shown_witness :
  ∃ form f,
    DocumentMetadataForm.__init__ never_required failing_lookup fixed_default message_text
      DocumentMetadataForm.base_fields
      (initial_of {| mt_pk := 4; mt_name := "vendor"; mt_label := "Vendor";
                     mt_default := ""; mt_lookup := "{{ vendors }}" |} invoice)
      empty_world
      = (logged empty_world [EvRequiredFor 4 1; EvLookupValues 4], Ok form) ∧
    DocumentMetadataForm.fields form !! "value" = Some f ∧
    field_widget f = readonly_input ∧
    field_initial f = PStr "Lookup value error: Could not parse the remainder".
Proof.
  destruct (lookup_failure_shown never_required failing_lookup fixed_default message_text
              {| mt_pk := 4; mt_name := "vendor"; mt_label := "Vendor";
                 mt_default := ""; mt_lookup := "{{ vendors }}" |} invoice
              (OtherException "Could not parse the remainder") empty_world
              ltac:(discriminate) eq_refl)
    as (form & f & Hinit & Hvalue & _ & Hwidget & Hinitial).
  exists form, f. split; [exact Hinit|]. split; [exact Hvalue|].
  split; [exact Hwidget|exact Hinitial].
Defined.

(** C5 as stated fails: with a default template as well, the value field's
    initial content after a failed lookup is the evaluated default, not the
    lookup error message. *)
Lemma lookup_failure_overwritten_by_default :
  ∃ w1 form f,
    mt_lookup currency ≠ "" ∧
    failing_lookup currency = Raise (OtherException "Could not parse the remainder") ∧
    DocumentMetadataForm.__init__ never_required failing_lookup fixed_default message_text
      DocumentMetadataForm.base_fields (initial_of currency invoice) empty_world
      = (w1, Ok form) ∧
    DocumentMetadataForm.fields form !! "value" = Some f ∧
    field_initial f = PStr "EUR" ∧
    ∀ text, field_initial f ≠ PStr ("Lookup value error: " +:+ text).
Proof.
  eexists _, _, _. split; [discriminate|]. split; [reflexivity|].
  split; [vm_compute; reflexivity|]. split; [vm_compute; reflexivity|].
  split; [reflexivity|]. intros text. cbv [String.append field_initial]. discriminate.
Defined.

(** A type that is not required, update toggle unset, no value: [clean]
    returns the cleaned data. *)
Lemma optional_value_form_witness :
  ∃ form,
    DocumentMetadataForm.__init__ never_required no_lookup fixed_default message_text
      DocumentMetadataForm.base_fields (initial_of due_date invoice) empty_world
      = (logged empty_world [EvRequiredFor 2 1], Ok form) ∧
    DocumentMetadataForm.clean never_required reject_empty
      (DocumentMetadataForm.with_cleaned_data form
         {[ "value" := PStr ""; "update" := PBool false ]}) empty_world
      = (logged empty_world [EvRequiredFor 2 1],
         Ok {[ "value" := PStr ""; "update" := PBool false ]}).
Proof.
  destruct (optional_value_form never_required no_lookup fixed_default message_text reject_empty
              due_date invoice empty_world eq_refl)
    as (form & u & Hinit & _ & _ & Hclean).
  exists form. split; [exact Hinit|].
  exact (proj1 (Hclean {[ "value" := PStr ""; "update" := PBool false ]}
                  empty_world eq_refl) eq_refl).
Defined.

(** C7 as stated fails: for a type that is not required, a missing value
    with the update toggle set reaches the validator, and [clean] fails
    when the validator rejects the empty value. *)
Lemma optional_value_form_clean_can_fail :
  ∃ w1 form u,
    never_required (relationships empty_world) due_date invoice = false ∧
    DocumentMetadataForm.__init__ never_required no_lookup fixed_default message_text
      DocumentMetadataForm.base_fields (initial_of due_date invoice) empty_world
      = (w1, Ok form) ∧
    DocumentMetadataForm.fields form !! "update" = Some u ∧
    field_initial u = PBool false ∧
    DocumentMetadataForm.clean never_required reject_empty
      (DocumentMetadataForm.with_cleaned_data form
         {[ "value" := PStr ""; "update" := PBool true ]}) empty_world
      = (logged empty_world [EvRequiredFor 2 1; EvValidateValue 2 1 (PStr "")],
         Raise (ValidationError "Enter a valid date.")).
Proof.
  eexists _, _, _. split; [reflexivity|].
  split; [vm_compute; reflexivity|]. split; [vm_compute; reflexivity|].
  split; [reflexivity|]. vm_compute. reflexivity.
Defined.

(** The bulk remove form for a required type: no value field, update
    toggle initially false, [clean] hands the cleaned data back even though
    the value is missing. *)
Lemma remove_form_spec_witness :
  ∃ w1 form,
    DocumentMetadataRemoveForm.__init__ always_required no_lookup fixed_default message_text
      (initial_of due_date invoice) empty_world = (w1, Ok form) ∧
    DocumentMetadataForm.fields form !! "value" = None ∧
    (∃ u, DocumentMetadataForm.fields form !! "update" = Some u ∧
          field_initial u = PBool false) ∧
    DocumentMetadataRemoveForm.clean
      (DocumentMetadataForm.with_cleaned_data form {[ "update" := PBool false ]})
      empty_world
      = (empty_world, Ok {[ "update" := PBool false ]}).
Proof.
  destruct (remove_form_spec always_required no_lookup fixed_default message_text
              (initial_of due_date invoice) empty_world) as [Hreturns Hshape].
  destruct Hreturns as (w1 & form & Hinit).
  { right. by exists due_date, invoice. }
  destruct (Hshape w1 form Hinit) as (Hvalue & Hupdate & Hclean).
  exists w1, form. split; [exact Hinit|]. split; [exact Hvalue|].
  split; [exact Hupdate|]. apply Hclean.
Defined.

(** C2 fails on the code. A value form for a required type, submitted with
    an empty value and the update toggle off: the framework's field
    cleaning rejects the empty required value field and leaves no ['value']
    key, and [clean] then fails with [KeyError] on [cleaned_data['value']]
    instead of raising the required-value [ValidationError]. *)
Lemma clean_required_empty_submission :
  ∃ w1 form value_field,
    DocumentMetadataForm.__init__ always_required no_lookup fixed_default message_text
      DocumentMetadataForm.base_fields (initial_of due_date invoice) empty_world
      = (w1, Ok form) ∧
    DocumentMetadataForm.fields form !! "value" = Some value_field ∧
    field_required value_field = true ∧
    let cd := Form__clean_fields (DocumentMetadataForm.fields form)
                {[ "metadata_type_id" := "2"; "value" := "" ]} in
    cd !! "value" = None ∧
    truthy (dict_get cd "update") = false ∧
    DocumentMetadataForm.clean always_required reject_empty
      (DocumentMetadataForm.with_cleaned_data form cd) empty_world
      = (logged empty_world [EvRequiredFor 2 1], Raise (KeyError "value")).
Proof.
  eexists _, _, _.
  split; [vm_compute; reflexivity|]. split; [vm_compute; reflexivity|].
  split; [reflexivity|]. cbn zeta.
  split; [vm_compute; reflexivity|]. split; [vm_compute; reflexivity|].
  vm_compute. reflexivity.
Defined.

(** C9 fails on the code. A bulk add form built with a queryset but no
    document type: the queryset keyword is still among the keyword
    arguments handed to the base form, which rejects it. *)
Lemma add_form_queryset_without_document_type :
  DocumentMetadataAddForm.__init__ (λ _, [due_date])
    {| DocumentMetadataAddForm.kw_document_type := None;
       DocumentMetadataAddForm.kw_queryset := Some [due_date; currency];
       DocumentMetadataAddForm.kw_others := [] |} empty_world
  = (empty_world,
     Raise (TypeError "__init__() got an unexpected keyword argument 'queryset'")).
Proof. vm_compute. reflexivity. Defined.

(** ** Further properties: reading and writing relationships *)

Lemma bind_Raise {A B} (m : M A) (k : A → M B) w w' e :
  bind m k w = (w', Raise e) →
  m w = (w', Raise e) ∨ ∃ w1 a, m w = (w1, Ok a) ∧ k a w1 = (w', Raise e).
Proof.
  unfold bind. destruct (m w) as [w1 [a|e']]; [eauto|].
  intros [= <- <-]. by left.
Qed.

Lemma map_to_list_two {V} (m : gmap nat V) k1 k2 v1 v2 :
  m !! k1 = Some v1 → m !! k2 = Some v2 → k1 ≠ k2 →
  ∃ x y rest, map_to_list m = x :: y :: rest.
Proof.
  intros H1 H2 Hne.
  apply elem_of_map_to_list in H1, H2.
  destruct (map_to_list m) as [|x [|y rest]]; [|exfalso|eauto].
  - by apply elem_of_nil in H1.
  - apply list_elem_of_singleton in H1, H2. apply Hne. congruence.
Qed.

Section relationship_reads.
Import DocumentTypeMetadataTypeRelationshipForm.
Implicit Types (self : t) (q : RelQuery) (w : World).

(** With two rows for the same pair the lookup itself fails. *)
Lemma get_run_duplicate q w k1 k2 r1 r2 :
  relationships w !! k1 = Some r1 → relationships w !! k2 = Some r2 →
  row_matches q r1 → row_matches q r2 → k1 ≠ k2 →
  QuerySet_get q w =
    (logged w [EvGet (q_document_type q) (q_metadata_type q)],
     Raise MultipleObjectsReturned).
Proof.
  intros H1 H2 Hm1 Hm2 Hne.
  destruct (map_to_list_two (matching q (relationships w)) k1 k2 r1 r2)
    as (x & y & rest & Hlist); [by apply matching_lookup..|done|].
  unfold QuerySet_get, bind, emit, logged. cbn. rewrite Hlist. by destruct x.
Qed.

(** X1. The relationship state the form reads for its pair: ['none'] when
    the pair has no row, the state named by the row's flag when it has one
    row, and a [MultipleObjectsReturned] failure when it has two. The read
    logs its queries and leaves the table alone. *)
Theorem get_relationship_type_reads self dt mt w :
  document_type (initial self) = Some dt →
  metadata_type (initial self) = Some mt →
  let q := pair_query dt mt in
  let tbl := relationships w in
  (no_row q tbl →
     get_relationship_type self w =
       (logged w [EvExists (dt_pk dt) (mt_pk mt)], Ok RELATIONSHIP_TYPE_NONE))
  ∧ (unique_pairs tbl → ∀ k r, tbl !! k = Some r → row_matches q r →
     get_relationship_type self w =
       (logged w [EvExists (dt_pk dt) (mt_pk mt); EvGet (dt_pk dt) (mt_pk mt)],
        Ok (state_name (row_required r))))
  ∧ (∀ k1 k2 r1 r2, tbl !! k1 = Some r1 → tbl !! k2 = Some r2 →
     row_matches q r1 → row_matches q r2 → k1 ≠ k2 →
     get_relationship_type self w =
       (logged w [EvExists (dt_pk dt) (mt_pk mt); EvGet (dt_pk dt) (mt_pk mt)],
        Raise MultipleObjectsReturned)).
Proof.
  intros Hdt Hmt q tbl. subst q tbl. unfold get_relationship_type.
  rewrite (bind_run_Ok _ _ _ _ _ (get_relationship_run self dt mt w Hdt Hmt)).
  rewrite (bind_run_Ok _ _ _ _ _ (exists_run (pair_query dt mt) w)).
  split; [|split].
  - intros Hnone. by rewrite (exists_false _ _ Hnone).
  - intros Huniq k r Hk Hm. rewrite (exists_true _ _ _ _ Hk Hm).
    erewrite bind_run_Ok by by apply (get_run_unique _ _ k r).
    unfold logged. cbn. rewrite <- (assoc_L (++)). by destruct (row_required r).
  - intros k1 k2 r1 r2 H1 H2 Hm1 Hm2 Hne. rewrite (exists_true _ _ _ _ H1 Hm1).
    erewrite bind_run_Raise by by apply (get_run_duplicate _ _ k1 k2 r1 r2).
    unfold logged. cbn. by rewrite <- (assoc_L (++)).
Qed.

End relationship_reads.

Section relationship_writes.
Import DocumentTypeMetadataTypeRelationshipForm.
Implicit Types (self : t) (q : RelQuery) (w : World).

Lemma get_cases q w :
  (∃ e, QuerySet_get q w =
          (logged w [EvGet (q_document_type q) (q_metadata_type q)], Raise e))
  ∨ (∃ k r, relationships w !! k = Some r ∧ row_matches q r ∧
       QuerySet_get q w =
         (logged w [EvGet (q_document_type q) (q_metadata_type q)],
          Ok {| inst_pk := Some k; inst_row := r |})).
Proof.
  unfold QuerySet_get, bind, emit, logged. cbn.
  destruct (map_to_list (matching q (relationships w))) as [|[k r] [|? ?]] eqn:E;
    [left; by eexists|right|left; by eexists].
  exists k, r.
  assert ((k, r) ∈ map_to_list (matching q (relationships w))) as Hin
    by (rewrite E; apply list_elem_of_here).
  apply elem_of_map_to_list, matching_lookup in Hin as [? ?]. done.
Qed.

(** What a run of a mutation routine can do to the world: it appends its
    log entries, every write among them is the form's user's, and either
    nothing is written, or the run succeeds with exactly one write, which
    inserts a row for the pair where there was none, or rewrites or deletes
    a row of the pair. *)
Lemma routine_outcome (run : t → RelQuery → M unit) self dt mt w :
  document_type (initial self) = Some dt →
  metadata_type (initial self) = Some mt →
  run = save_relationship_none ∨ run = save_relationship_optional ∨
    run = save_relationship_required →
  let q := pair_query dt mt in
  let tbl := relationships w in
  ∃ evs tbl' res,
    run self q w = ({| relationships := tbl'; log := log w ++ evs |}, res) ∧
    Forall (written_by (_user self)) evs ∧
    ((tbl' = tbl ∧ filter is_write evs = []) ∨
     (res = Ok tt ∧ length (filter is_write evs) = 1 ∧
      ∃ k row, row_matches q row ∧
        ((no_row q tbl ∧ tbl !! k = None ∧ tbl' = <[k := row]> tbl) ∨
         (∃ r, tbl !! k = Some r ∧ row_matches q r ∧
            (tbl' = delete k tbl ∨ tbl' = <[k := row]> tbl))))).
Proof.
  intros Hdt Hmt Hrun q tbl. subst q tbl.
  assert (∀ b,
    ∃ evs tbl' res,
      routine_for b self (pair_query dt mt) w =
        ({| relationships := tbl'; log := log w ++ evs |}, res) ∧
      Forall (written_by (_user self)) evs ∧
      ((tbl' = relationships w ∧ filter is_write evs = []) ∨
       (res = Ok tt ∧ length (filter is_write evs) = 1 ∧
        ∃ k row, row_matches (pair_query dt mt) row ∧
          ((no_row (pair_query dt mt) (relationships w) ∧
            relationships w !! k = None ∧ tbl' = <[k := row]> (relationships w)) ∨
           (∃ r, relationships w !! k = Some r ∧ row_matches (pair_query dt mt) r ∧
              (tbl' = delete k (relationships w) ∨
               tbl' = <[k := row]> (relationships w))))))) as Hflag.
  { intros b.
    destruct (row_or_no_row (pair_query dt mt) (relationships w))
      as [Hnone|(k0 & r0 & Hk0 & Hm0)].
    - rewrite (routine_missing b self dt mt w Hdt Hmt Hnone).
      eexists _, _, _. split; [reflexivity|]. split.
      + by repeat constructor.
      + right. split; [done|]. split; [done|].
        exists (fresh (dom (relationships w))), (pair_row dt mt b).
        split; [done|]. left. split; [done|]. split; [apply fresh_pk_unused|done].
    - assert (routine_for b self (pair_query dt mt) w =
        bind (QuerySet_get (pair_query dt mt))
          (λ instance, Model_save (set_required instance b) (_user self))
          (logged w [EvExists (dt_pk dt) (mt_pk mt)])) as ->.
      { destruct b; unfold routine_for, save_relationship_required,
          save_relationship_optional;
          rewrite (bind_run_Ok _ _ _ _ _ (exists_run (pair_query dt mt) w));
          by rewrite (exists_true _ _ _ _ Hk0 Hm0). }
      destruct (get_cases (pair_query dt mt) (logged w [EvExists (dt_pk dt) (mt_pk mt)]))
        as [[e Hget]|(k & r & Hk & Hm & Hget)].
      + rewrite (bind_run_Raise _ _ _ _ _ Hget). unfold logged. cbn.
        rewrite <- (assoc_L (++)).
        eexists _, _, _. split; [reflexivity|]. split; [by repeat constructor|].
        by left.
      + rewrite (bind_run_Ok _ _ _ _ _ Hget). unfold Model_save, logged. cbn.
        rewrite <- !(assoc_L (++)).
        eexists _, _, _. split; [reflexivity|]. split; [by repeat constructor|].
        right. split; [done|]. split; [done|].
        eexists k, _. split; [|right; exists r; eauto].
        destruct Hm. by split. }
  destruct Hrun as [->|[->| ->]]; [|apply (Hflag false)|apply (Hflag true)].
  unfold save_relationship_none.
  destruct (get_cases (pair_query dt mt) w) as [[e Hget]|(k & r & Hk & Hm & Hget)].
  - rewrite (bind_run_Raise _ _ _ _ _ Hget). unfold logged.
    eexists _, _, _. split; [reflexivity|]. split; [by repeat constructor|].
    by left.
  - rewrite (bind_run_Ok _ _ _ _ _ Hget). unfold Model_delete, logged. cbn.
    rewrite <- !(assoc_L (++)).
    eexists _, _, _. split; [reflexivity|]. split; [by repeat constructor|].
    right. split; [done|]. split; [done|].
    exists k, r. split; [done|]. right. exists r. eauto.
Qed.

End relationship_writes.

Section relationship_save.
Import DocumentTypeMetadataTypeRelationshipForm.
Implicit Types (self : t) (q : RelQuery) (w : World).

Lemma world_eta w : w = {| relationships := relationships w; log := log w ++ [] |}.
Proof. destruct w. cbn. by rewrite (right_id_L [] (++)). Qed.

(** [save] inherits the outcome of the routine it runs, and does nothing at
    all when it stops before reaching one. *)
Lemma save_outcome self w :
  ∃ evs tbl' res,
    save self w = ({| relationships := tbl'; log := log w ++ evs |}, res) ∧
    Forall (written_by (_user self)) evs ∧
    ((tbl' = relationships w ∧ filter is_write evs = []) ∨
     (res = Ok tt ∧ length (filter is_write evs) = 1 ∧
      ∃ dt mt k row,
        document_type (initial self) = Some dt ∧
        metadata_type (initial self) = Some mt ∧
        row_matches (pair_query dt mt) row ∧
        ((no_row (pair_query dt mt) (relationships w) ∧
          relationships w !! k = None ∧ tbl' = <[k := row]> (relationships w)) ∨
         (∃ r, relationships w !! k = Some r ∧ row_matches (pair_query dt mt) r ∧
            (tbl' = delete k (relationships w) ∨
             tbl' = <[k := row]> (relationships w)))))).
Proof.
  assert (∀ res, save self w = (w, res) →
    ∃ evs tbl' res',
      save self w = ({| relationships := tbl'; log := log w ++ evs |}, res') ∧
      Forall (written_by (_user self)) evs ∧
      ((tbl' = relationships w ∧ filter is_write evs = []) ∨
       (res' = Ok tt ∧ length (filter is_write evs) = 1 ∧
        ∃ dt mt k row,
          document_type (initial self) = Some dt ∧
          metadata_type (initial self) = Some mt ∧
          row_matches (pair_query dt mt) row ∧
          ((no_row (pair_query dt mt) (relationships w) ∧
            relationships w !! k = None ∧ tbl' = <[k := row]> (relationships w)) ∨
           (∃ r, relationships w !! k = Some r ∧ row_matches (pair_query dt mt) r ∧
              (tbl' = delete k (relationships w) ∨
               tbl' = <[k := row]> (relationships w))))))) as Hidle.
  { intros res Hsave. exists [], (relationships w), res.
    split; [by rewrite Hsave, <- world_eta|]. split; [constructor|]. by left. }
  destruct (document_type (initial self)) as [dt|] eqn:Hdt;
    [|eapply Hidle; unfold save, get_relationship, bind; by rewrite Hdt].
  destruct (metadata_type (initial self)) as [mt|] eqn:Hmt;
    [|eapply Hidle; unfold save, get_relationship, bind; by rewrite Hdt, Hmt].
  pose proof (get_relationship_run self dt mt w Hdt Hmt) as Hq.
  destruct (cleaned_data self !! "relationship_type") as [chosen|] eqn:Hcd;
    [|eapply Hidle; unfold save, bind; by rewrite Hq, Hcd].
  destruct (initial_relationship_type self) as [initial_type|] eqn:Hit;
    [|eapply Hidle; unfold save, bind; by rewrite Hq, Hcd, Hit].
  destruct (decide (chosen = initial_type)) as [->|Hne].
  { eapply Hidle. by apply (save_unchanged self dt mt initial_type w). }
  pose proof (save_changed self dt mt chosen initial_type w Hdt Hmt Hcd Hit Hne)
    as Hsave.
  destruct (lookup_method _) as [method|] eqn:Hmethod; [|by eapply Hidle].
  rewrite Hsave.
  destruct (routine_outcome method self dt mt w Hdt Hmt)
    as (evs & tbl' & res & Hrun & Hby & Hcases).
  { apply lookup_method_cases in Hmethod as [[_ ->]|[[_ ->]|[_ ->]]]; auto. }
  exists evs, tbl', res. split; [done|]. split; [done|].
  destruct Hcases as [?|(? & ? & k & row & ? & ?)]; [by left|].
  right. split; [done|]. split; [done|]. by exists dt, mt, k, row.
Qed.

Lemma save_keeps_unique_pairs self w :
  unique_pairs (relationships w) → unique_pairs (relationships (save self w).1).
Proof.
  intros Huniq.
  destruct (save_outcome self w) as (evs & tbl' & res & -> & _ & Hcases). cbn.
  destruct Hcases as [[-> _]|(_ & _ & dt & mt & k & row & _ & _ & Hrow & Hcase)];
    [done|].
  destruct Hcase as [(Hnone & _ & ->)|(r & Hk & Hm & [->| ->])].
  - by apply (unique_pairs_insert_new (pair_query dt mt)).
  - by apply unique_pairs_delete.
  - destruct Hrow, Hm. apply (unique_pairs_insert_same _ k r); [done..|congruence|congruence].
Qed.

(** X2. A failing [save] has written nothing: whatever exception it ends
    in, the table is as it was and no write is logged. *)
Theorem save_failure_writes_nothing self w w' e :
  save self w = (w', Raise e) →
  relationships w' = relationships w ∧
  ∃ evs, log w' = log w ++ evs ∧ filter is_write evs = [].
Proof.
  intros Hsave.
  destruct (save_outcome self w) as (evs & tbl' & res & Heq & _ & Hcases).
  rewrite Hsave in Heq. injection Heq as Hw Hres. subst w' res. cbn.
  destruct Hcases as [[-> Hnone]|[? _]]; [|done]. eauto.
Qed.

(** X3. [save] never touches another pair: a row that does not belong to
    the form's (document type, metadata type) pair is stored under its key
    after [save] exactly when it was before. *)
Theorem save_other_pairs_untouched self dt mt w k r :
  document_type (initial self) = Some dt →
  metadata_type (initial self) = Some mt →
  ¬ row_matches (pair_query dt mt) r →
  relationships (save self w).1 !! k = Some r ↔ relationships w !! k = Some r.
Proof.
  intros Hdt Hmt Hother.
  destruct (save_outcome self w) as (evs & tbl' & res & -> & _ & Hcases). cbn.
  destruct Hcases
    as [[-> _]|(_ & _ & dt' & mt' & k' & row & Hdt' & Hmt' & Hrow & Hcase)];
    [done|].
  rewrite Hdt in Hdt'. rewrite Hmt in Hmt'. injection Hdt' as <-. injection Hmt' as <-.
  destruct Hcase as [(_ & Hfree & ->)|(r' & Hk' & Hm' & [->| ->])].
  - rewrite lookup_insert_Some. split; [intros [[_ <-]|[_ ?]]; done|].
    intros Hk. right. split; [|done]. intros ->. congruence.
  - rewrite lookup_delete_Some. split; [by intros [_ ?]|].
    intros Hk. split; [|done]. intros ->. congruence.
  - rewrite lookup_insert_Some. split; [intros [[_ <-]|[_ ?]]; done|].
    intros Hk. right. split; [|done]. intros ->. congruence.
Qed.

(** X4. Every write [save] makes is attributed to the form's acting user,
    and one [save] makes at most one write. *)
Theorem save_writes_attributed self w :
  ∃ evs,
    log (save self w).1 = log w ++ evs ∧
    Forall (written_by (_user self)) evs ∧
    length (filter is_write evs) ≤ 1.
Proof.
  destruct (save_outcome self w) as (evs & tbl' & res & -> & Hby & Hcases).
  exists evs. split; [done|]. split; [done|].
  destruct Hcases as [[_ ->]|(_ & -> & _)]; cbn; lia.
Qed.

End relationship_save.

Section relationship_round_trip.
Import DocumentTypeMetadataTypeRelationshipForm.
Implicit Types (self : t) (q : RelQuery) (w : World).

Lemma read_state_none self dt mt w :
  document_type (initial self) = Some dt →
  metadata_type (initial self) = Some mt →
  no_row (pair_query dt mt) (relationships w) →
  get_relationship_type self w =
    (logged w [EvExists (dt_pk dt) (mt_pk mt)], Ok RELATIONSHIP_TYPE_NONE).
Proof.
  intros Hdt Hmt Hnone. unfold get_relationship_type.
  rewrite (bind_run_Ok _ _ _ _ _ (get_relationship_run self dt mt w Hdt Hmt)).
  rewrite (bind_run_Ok _ _ _ _ _ (exists_run (pair_query dt mt) w)).
  by rewrite (exists_false _ _ Hnone).
Qed.

Lemma read_state_row self dt mt w k r :
  document_type (initial self) = Some dt →
  metadata_type (initial self) = Some mt →
  unique_pairs (relationships w) →
  relationships w !! k = Some r → row_matches (pair_query dt mt) r →
  get_relationship_type self w =
    (logged w [EvExists (dt_pk dt) (mt_pk mt); EvGet (dt_pk dt) (mt_pk mt)],
     Ok (state_name (row_required r))).
Proof.
  intros Hdt Hmt Huniq Hk Hm. unfold get_relationship_type.
  rewrite (bind_run_Ok _ _ _ _ _ (get_relationship_run self dt mt w Hdt Hmt)).
  rewrite (bind_run_Ok _ _ _ _ _ (exists_run (pair_query dt mt) w)).
  rewrite (exists_true _ _ _ _ Hk Hm).
  erewrite bind_run_Ok by by apply (get_run_unique _ _ k r).
  unfold logged. cbn. rewrite <- (assoc_L (++)). by destruct (row_required r).
Qed.

Lemma read_state self dt mt w :
  document_type (initial self) = Some dt →
  metadata_type (initial self) = Some mt →
  unique_pairs (relationships w) →
  ∃ evs state,
    get_relationship_type self w = (logged w evs, Ok state) ∧
    filter is_write evs = [] ∧
    (no_row (pair_query dt mt) (relationships w) → state = RELATIONSHIP_TYPE_NONE) ∧
    (∀ k r, relationships w !! k = Some r → row_matches (pair_query dt mt) r →
       state = state_name (row_required r)).
Proof.
  intros Hdt Hmt Huniq.
  destruct (row_or_no_row (pair_query dt mt) (relationships w))
    as [Hnone|(k & r & Hk & Hm)].
  - eexists _, _. split; [by apply read_state_none|]. split; [done|].
    split; [done|]. intros k r Hk Hm. by destruct (Hnone k r).
  - eexists _, _. split; [by apply (read_state_row self dt mt w k r)|].
    split; [done|]. split.
    + intros Hnone. by destruct (Hnone k r).
    + intros k' r' Hk' Hm'.
      assert (k' = k) as ->.
      { destruct Hm, Hm'. apply (Huniq k' k r' r Hk' Hk); congruence. }
      congruence.
Qed.

Lemma no_row_after_delete q (tbl : gmap nat Row) k r :
  unique_pairs tbl → tbl !! k = Some r → row_matches q r →
  no_row q (delete k tbl).
Proof.
  intros Huniq Hk [Hdt Hmt] k' r' Hk' [Hdt' Hmt'].
  apply lookup_delete_Some in Hk' as [Hne Hk'].
  apply Hne. symmetry. apply (Huniq k' k r' r Hk' Hk); congruence.
Qed.

(** X5. Round trip. On a table with at most one row per pair, after a
    [save] that changed the state and succeeded, reading the relationship
    state of the pair gives the state that was chosen: a form built next
    starts from it. *)
Theorem save_then_read self dt mt chosen initial_type w w' :
  document_type (initial self) = Some dt →
  metadata_type (initial self) = Some mt →
  unique_pairs (relationships w) →
  cleaned_data self !! "relationship_type" = Some chosen →
  initial_relationship_type self = Some initial_type →
  chosen ≠ initial_type →
  save self w = (w', Ok tt) →
  ∃ evs, get_relationship_type self w' = (logged w' evs, Ok chosen) ∧
         filter is_write evs = [].
Proof.
  intros Hdt Hmt Huniq Hcd Hit Hne.
  rewrite (save_changed self dt mt chosen initial_type w Hdt Hmt Hcd Hit Hne).
  destruct (lookup_method _) as [method|] eqn:Hmethod; [|done].
  assert (∀ b tbl' evs k,
    tbl' = <[k := pair_row dt mt b]> (relationships w) →
    unique_pairs tbl' →
    w' = {| relationships := tbl'; log := evs |} →
    ∃ evs', get_relationship_type self w' = (logged w' evs', Ok (state_name b)) ∧
            filter is_write evs' = []) as Hwritten.
  { intros b tbl' evs k Htbl Huniq' ->. eexists. split; [|shelve].
    apply (read_state_row self dt mt _ k (pair_row dt mt b)); [done..| |done].
    cbn. rewrite Htbl. apply lookup_insert_eq.
    Unshelve. done. }
  destruct (row_or_no_row (pair_query dt mt) (relationships w))
    as [Hnone|(k & r & Hk & Hm)];
    apply lookup_method_cases in Hmethod as [[-> ->]|[[-> ->]|[-> ->]]].
  - by rewrite none_missing.
  - rewrite (routine_missing false) by done. intros [= <-].
    eapply (Hwritten false); [reflexivity| |reflexivity].
    by apply (unique_pairs_insert_new (pair_query dt mt)).
  - rewrite (routine_missing true) by done. intros [= <-].
    eapply (Hwritten true); [reflexivity| |reflexivity].
    by apply (unique_pairs_insert_new (pair_query dt mt)).
  - rewrite (none_existing self _ w k r) by done. intros [= <-].
    eexists. split; [|shelve].
    apply read_state_none; [done..|]. cbn. by apply (no_row_after_delete _ _ k r).
    Unshelve. done.
  - rewrite (routine_existing false self dt mt w k r) by done. intros [= <-].
    eapply (Hwritten false); [reflexivity| |reflexivity].
    destruct Hm. by apply (unique_pairs_insert_same _ k r).
  - rewrite (routine_existing true self dt mt w k r) by done. intros [= <-].
    eapply (Hwritten true); [reflexivity| |reflexivity].
    destruct Hm. by apply (unique_pairs_insert_same _ k r).
Qed.

Lemma lookup_method_None chosen :
  chosen ∉ RELATIONSHIP_CHOICES.*1 →
  lookup_method ("save_relationship_" +:+ chosen) = None.
Proof.
  intros Hnot. destruct (lookup_method _) as [method|] eqn:Hmethod; [|done].
  exfalso. apply Hnot.
  apply lookup_method_cases in Hmethod as [[-> _]|[[-> _]|[-> _]]];
    cbn; set_solver.
Qed.

(** X6. A chosen state that is none of the three choices and differs from
    the initial state makes [save] fail with an [AttributeError] naming the
    method it looked for; the world is untouched. *)
Theorem save_unknown_state self dt mt chosen initial_type w :
  document_type (initial self) = Some dt →
  metadata_type (initial self) = Some mt →
  cleaned_data self !! "relationship_type" = Some chosen →
  initial_relationship_type self = Some initial_type →
  chosen ≠ initial_type →
  chosen ∉ RELATIONSHIP_CHOICES.*1 →
  save self w = (w, Raise (AttributeError ("save_relationship_" +:+ chosen))).
Proof.
  intros Hdt Hmt Hcd Hit Hne Hnot.
  rewrite (save_changed self dt mt chosen initial_type w Hdt Hmt Hcd Hit Hne).
  by rewrite (lookup_method_None chosen Hnot).
Qed.

(** X7. A form built without ['main_model'] in its initial data is built
    without any query and has no initial relationship state; [save] on it
    always fails and leaves the world untouched. With both objects in the
    initial data and a submitted state, the failure is the
    [AttributeError] on [initial_relationship_type]. *)
Theorem save_without_main_model kw w0 w1 form :
  __init__ kw w0 = (w1, Ok form) →
  main_model (default empty_initial (kw_initial kw)) = None →
  w1 = w0 ∧ initial_relationship_type form = None ∧
  ∀ cd w,
    ∃ e, save (with_cleaned_data form cd) w = (w, Raise e) ∧
         (is_Some (document_type (initial form)) →
          is_Some (metadata_type (initial form)) →
          is_Some (cd !! "relationship_type") →
          e = AttributeError "initial_relationship_type").
Proof.
  unfold __init__. intros (w' & user & [_ ->]%getitem_Ok & Hrun)%bind_Ok Hmain.
  cbn in Hrun. rewrite Hmain in Hrun. apply ret_Ok in Hrun as [-> ->].
  split; [done|]. split; [done|]. intros cd w.
  unfold save, get_relationship, bind. cbn.
  destruct (document_type _) as [dt|]; cbn; [|eexists; split; [done|by intros [? ?]]].
  destruct (metadata_type _) as [mt|]; cbn;
    [|eexists; split; [done|by intros _ [? ?]]].
  destruct (cd !! "relationship_type") as [chosen|]; cbn;
    [|eexists; split; [done|by intros _ _ [? ?]]].
  by eexists.
Qed.

(** X8. When the table holds two rows for the form's pair, each of the
    three mutation routines fails with [MultipleObjectsReturned] and writes
    nothing. *)
Theorem duplicate_rows_block_routines (run : t → RelQuery → M unit) self dt mt w
    k1 k2 r1 r2 :
  run = save_relationship_none ∨ run = save_relationship_optional ∨
    run = save_relationship_required →
  relationships w !! k1 = Some r1 → relationships w !! k2 = Some r2 →
  row_matches (pair_query dt mt) r1 → row_matches (pair_query dt mt) r2 →
  k1 ≠ k2 →
  ∃ evs, run self (pair_query dt mt) w = (logged w evs, Raise MultipleObjectsReturned) ∧
         filter is_write evs = [].
Proof.
  intros Hrun H1 H2 Hm1 Hm2 Hne.
  assert (∀ w0, relationships w0 = relationships w →
    QuerySet_get (pair_query dt mt) w0 =
      (logged w0 [EvGet (dt_pk dt) (mt_pk mt)], Raise MultipleObjectsReturned))
    as Hget.
  { intros w0 Hw0.
    apply (get_run_duplicate (pair_query dt mt) w0 k1 k2 r1 r2); by rewrite ?Hw0. }
  destruct Hrun as [->|[->| ->]].
  - unfold save_relationship_none.
    rewrite (bind_run_Raise _ _ _ _ _ (Hget w eq_refl)). by eexists.
  - unfold save_relationship_optional.
    rewrite (bind_run_Ok _ _ _ _ _ (exists_run (pair_query dt mt) w)).
    rewrite (exists_true _ _ _ _ H1 Hm1). cbv beta iota.
    erewrite bind_run_Raise by (apply Hget; reflexivity).
    exists [EvExists (dt_pk dt) (mt_pk mt); EvGet (dt_pk dt) (mt_pk mt)].
    unfold logged. cbn. by rewrite <- (assoc_L (++)).
  - unfold save_relationship_required.
    rewrite (bind_run_Ok _ _ _ _ _ (exists_run (pair_query dt mt) w)).
    rewrite (exists_true _ _ _ _ H1 Hm1). cbv beta iota.
    erewrite bind_run_Raise by (apply Hget; reflexivity).
    exists [EvExists (dt_pk dt) (mt_pk mt); EvGet (dt_pk dt) (mt_pk mt)].
    unfold logged. cbn. by rewrite <- (assoc_L (++)).
Qed.

End relationship_round_trip.

Section relationship_construction.
Import DocumentTypeMetadataTypeRelationshipForm.
Implicit Types (self : t) (q : RelQuery) (w : World).

(** Reading the relationship state never writes, whatever it returns. *)
Lemma get_relationship_type_no_write self w :
  ∃ evs res, get_relationship_type self w = (logged w evs, res) ∧
             filter is_write evs = [].
Proof.
  unfold get_relationship_type, get_relationship, bind.
  destruct (document_type (initial self)) as [dt|]; cbn;
    [|exists []; eexists; by rewrite logged_nil].
  destruct (metadata_type (initial self)) as [mt|]; cbn;
    [|exists []; eexists; by rewrite logged_nil].
  destruct (bool_decide _); cbn.
  - unfold logged. cbn.
    destruct (map_to_list _) as [|[k r] [|? ?]]; cbn;
      try destruct (row_required r);
      exists [EvExists (dt_pk dt) (mt_pk mt); EvGet (dt_pk dt) (mt_pk mt)];
      eexists; by rewrite <- (assoc_L (++)).
  - by exists [EvExists (dt_pk dt) (mt_pk mt)]; eexists.
Qed.

(** What the constructor hands on to the form it returns. *)
Lemma init_keeps kw w w' form :
  __init__ kw w = (w', Ok form) →
  kw_user kw = Some (_user form) ∧
  initial form = default empty_initial (kw_initial kw) ∧
  relationships w' = relationships w.
Proof.
  unfold __init__. intros (w1 & user & [Huser ->]%getitem_Ok & Hrun)%bind_Ok.
  cbn in Hrun.
  destruct (main_model (default empty_initial (kw_initial kw))) as [main|].
  2:{ by apply ret_Ok in Hrun as [-> ->]. }
  apply bind_Ok in Hrun as (w1 & lbl & Hlabel & Hrun).
  assert (w1 = w) as ->.
  { case_bool_decide;
      apply bind_Ok in Hlabel as (? & ? & [_ ->]%getitem_Ok & [_ ->]%ret_Ok); done. }
  apply bind_Ok in Hrun as (w1 & fields1 & [-> _]%update_field_Ok & Hrun).
  apply bind_Ok in Hrun as (w1 & rt & Hrt & Hrun).
  apply bind_Ok in Hrun as (w2 & fields2 & [-> _]%update_field_Ok & Hrun).
  apply ret_Ok in Hrun as [-> ->]. cbn. split; [done|]. split; [done|].
  match type of Hrt with
  | get_relationship_type ?s w = _ =>
      destruct (get_relationship_type_no_write s w) as (evs & res & Heq & _)
  end.
  rewrite Heq in Hrt. by injection Hrt as <- _.
Qed.

(** X9. Construction with a user and complete initial data, on a table
    with at most one row per pair, always returns a form. It only queries:
    nothing is written. The form keeps the user and the initial data, shows
    the label of the other side of the pair (the document type's when the
    main model is the metadata type, the metadata type's otherwise), and
    starts from the relationship state stored for the pair. *)
Theorem relationship_form_init kw user ini main dt mt w0 :
  kw_user kw = Some user → kw_initial kw = Some ini →
  main_model ini = Some main →
  document_type ini = Some dt → metadata_type ini = Some mt →
  unique_pairs (relationships w0) →
  ∃ form evs state,
    __init__ kw w0 = (logged w0 evs, Ok form) ∧
    filter is_write evs = [] ∧
    _user form = user ∧ initial form = ini ∧
    initial_relationship_type form = Some state ∧
    field_initial <$> fields form !! "label" =
      Some (PStr (if bool_decide (main = "metadata_type")
                  then dt_label dt else mt_label mt)) ∧
    field_initial <$> fields form !! "relationship_type" = Some (PStr state) ∧
    (no_row (pair_query dt mt) (relationships w0) → state = RELATIONSHIP_TYPE_NONE) ∧
    (∀ k r, relationships w0 !! k = Some r → row_matches (pair_query dt mt) r →
       state = state_name (row_required r)).
Proof.
  intros Huser Hini Hmain Hdt Hmt Huniq.
  unfold __init__. rewrite Huser, Hini. cbn [getitem default].
  change (bind (ret user) ?k) with (k user). cbn beta zeta.
  cbn [initial fields cleaned_data]. unfold id. rewrite Hmain.
  set (label := if bool_decide (main = "metadata_type")
                then dt_label dt else mt_label mt).
  erewrite (bind_run_Ok _ _ w0 w0 label).
  2:{ subst label. case_bool_decide; by rewrite ?Hdt, ?Hmt. }
  erewrite bind_run_Ok by (by apply update_field_run).
  match goal with
  | |- context [get_relationship_type ?s] =>
      destruct (read_state s dt mt w0 Hdt Hmt Huniq)
        as (evs & state & Hread & Hnowrite & Hnone & Hrow)
  end.
  rewrite (bind_run_Ok _ _ _ _ _ Hread).
  erewrite bind_run_Ok
    by (apply update_field_run; by rewrite lookup_insert_ne).
  eexists _, evs, state. split; [reflexivity|]. cbn.
  split; [done|]. split; [done|]. split; [done|]. split; [done|].
  split; [by rewrite lookup_insert_ne, lookup_insert_eq|].
  split; [by rewrite lookup_insert_eq|]. done.
Qed.

End relationship_construction.

(** ** Further properties: saving and building several forms *)

Section relationship_collection.
Import DocumentTypeMetadataTypeRelationshipForm.
Implicit Types (w : World) (forms : list t).

Lemma for_each_cons {A} (f : A → M unit) x rest w :
  for_each f (x :: rest) w =
    match f x w with
    | (w1, Ok _) => for_each f rest w1
    | (w1, Raise e) => (w1, Raise e)
    end.
Proof. reflexivity. Qed.

(** X10. Saving any number of forms one after the other, stopping at the
    first failure, keeps the table at one row per pair at most. *)
Theorem saves_keep_unique_pairs forms w :
  unique_pairs (relationships w) →
  unique_pairs (relationships (for_each save forms w).1).
Proof.
  revert w. induction forms as [|form rest IH]; intros w Huniq; [done|].
  rewrite for_each_cons.
  pose proof (save_keeps_unique_pairs form w Huniq) as Hstep.
  destruct (save form w) as [w1 [[]|e]]; cbn in *; [by apply IH|done].
Qed.

(** X11. When every form of a sequence carries the same acting user, every
    write the saves make is attributed to that user, and there are at most
    as many writes as forms. *)
Theorem saves_attributed user forms w :
  Forall (λ form, _user form = user) forms →
  ∃ evs,
    log (for_each save forms w).1 = log w ++ evs ∧
    Forall (written_by user) evs ∧
    length (filter is_write evs) ≤ length forms.
Proof.
  revert w. induction forms as [|form rest IH]; intros w Husers.
  { exists []. cbn. by rewrite (right_id_L [] (++)). }
  apply Forall_cons in Husers as [Huser Husers].
  rewrite for_each_cons.
  destruct (save_outcome form w) as (evs & tbl' & res & Hsave & Hby & Hcases).
  rewrite Huser in Hby.
  assert (length (filter is_write evs) ≤ 1) as Hone.
  { destruct Hcases as [[_ ->]|(_ & -> & _)]; cbn; lia. }
  rewrite Hsave. destruct res as [[]|e].
  - destruct (IH {| relationships := tbl'; log := log w ++ evs |} Husers)
      as (evs' & Hlog & Hby' & Hcount).
    exists (evs ++ evs'). cbn in Hlog. rewrite Hlog, (assoc_L (++)).
    split; [done|]. split; [by apply Forall_app|].
    rewrite filter_app, length_app. cbn. lia.
  - exists evs. cbn. split; [done|]. split; [done|]. lia.
Qed.

Lemma construct_forms_keep user initials w w' forms :
  DocumentTypeMetadataTypeRelationshipFormSet.construct_forms (Some user) initials w
    = (w', Ok forms) →
  Forall (λ form, _user form = user) forms ∧
  initial <$> forms = initials ∧
  relationships w' = relationships w.
Proof.
  revert w forms. induction initials as [|ini rest IH]; intros w forms; cbn.
  - by intros [-> ->]%ret_Ok.
  - intros (w1 & form & Hform & Hrest)%bind_Ok.
    apply bind_Ok in Hrest as (w2 & others & Hothers & [-> ->]%ret_Ok).
    apply init_keeps in Hform as (Huser & Hini & Htbl). cbn in Huser, Hini.
    apply IH in Hothers as (Husers & Hinis & Htbl').
    split; [constructor; [congruence|done]|]. split; [|congruence].
    cbn. by rewrite Hini, Hinis.
Qed.

(** X12. A collection is built only with an acting user: without ['_user']
    the constructor fails with [KeyError]. With one, the collection's forms
    are built one per initial dictionary, in order, each carrying that user
    (also when the caller's [form_kwargs] named another), and building them
    writes nothing. *)
Theorem formset_forms_carry_user kw w0 :
  (DocumentTypeMetadataTypeRelationshipFormSet.kw_user kw = None →
   DocumentTypeMetadataTypeRelationshipFormSet.__init__ kw w0
     = (w0, Raise (KeyError "_user"))) ∧
  (∀ w1 formset w2 forms,
     DocumentTypeMetadataTypeRelationshipFormSet.__init__ kw w0 = (w1, Ok formset) →
     DocumentTypeMetadataTypeRelationshipFormSet.forms formset w1 = (w2, Ok forms) →
     ∃ user,
       DocumentTypeMetadataTypeRelationshipFormSet.kw_user kw = Some user ∧
       w1 = w0 ∧
       Forall (λ form, _user form = user) forms ∧
       initial <$> forms = DocumentTypeMetadataTypeRelationshipFormSet.kw_initial kw ∧
       relationships w2 = relationships w0).
Proof.
  split.
  - intros Hnone. unfold DocumentTypeMetadataTypeRelationshipFormSet.__init__, bind.
    by rewrite Hnone.
  - intros w1 formset w2 forms.
    unfold DocumentTypeMetadataTypeRelationshipFormSet.__init__.
    intros (w' & user & [Huser ->]%getitem_Ok & [-> ->]%ret_Ok)%bind_Ok.
    unfold DocumentTypeMetadataTypeRelationshipFormSet.forms. cbn.
    intros (Husers & Hinis & Htbl)%construct_forms_keep.
    by exists user.
Qed.

End relationship_collection.

(** ** Further properties: the value form's constructor *)

Section value_form_construction.
Import DocumentMetadataForm.
Variable get_required_for : gmap nat Row → MetadataType → DocumentType → bool.
Variable get_lookup_values : MetadataType → result (list string).
Variable get_default_value : MetadataType → result string.
Variable exception_text : exn → string.
Implicit Types (w : World) (cls : gmap string Field).

Lemma built_fields_dom cls required mt lookup default_value :
  dom (built_fields exception_text cls required mt lookup default_value) = dom cls.
Proof.
  unfold built_fields.
  destruct (has_template (mt_default mt)), (has_template (mt_lookup mt)), required;
    by rewrite !dom_alter_L.
Qed.

Lemma built_fields_name cls required mt lookup default_value :
  built_fields exception_text cls required mt lookup default_value !! "metadata_type_name" =
    set_field_initial
      (PStr ((if has_template (mt_label mt) then mt_label mt else mt_name mt)
             +:+ (if required then " (Required)" else "")))
    <$> cls !! "metadata_type_name".
Proof.
  unfold built_fields.
  destruct (has_template (mt_default mt)), (has_template (mt_lookup mt)), required;
    rewrite ?(lookup_alter_ne _ _ "value" "metadata_type_name"),
      ?(lookup_alter_ne _ _ "metadata_type_id" "metadata_type_name"),
      ?lookup_alter_eq, ?(lookup_alter_ne _ _ "update" "metadata_type_name"),
      ?(lookup_alter_ne _ _ "value" "metadata_type_name") by done;
    by destruct (cls !! "metadata_type_name").
Qed.

Lemma built_fields_id cls required mt lookup default_value :
  built_fields exception_text cls required mt lookup default_value !! "metadata_type_id" =
    set_field_initial (PInt (mt_pk mt)) <$> cls !! "metadata_type_id".
Proof.
  unfold built_fields.
  destruct (has_template (mt_default mt)), (has_template (mt_lookup mt)), required;
    rewrite ?(lookup_alter_ne _ _ "value" "metadata_type_id"),
      ?lookup_alter_eq,
      ?(lookup_alter_ne _ _ "metadata_type_name" "metadata_type_id"),
      ?(lookup_alter_ne _ _ "update" "metadata_type_id"),
      ?(lookup_alter_ne _ _ "value" "metadata_type_id") by done;
    by destruct (cls !! "metadata_type_id").
Qed.

(** X13. Once the base form's constructor has returned, initial data
    without the metadata type makes the constructor fail with
    [KeyError] on ['metadata_type'], whether or not the document type is
    there; initial data with the metadata type but without the document
    type makes it fail with [KeyError] on ['document_type']. Either way no
    collaborator has been called and nothing is logged. *)
Theorem value_form_init_missing_key cls ini w :
  (init_metadata_type ini = None →
   __init__ get_required_for get_lookup_values get_default_value exception_text cls
     {| kw_initial := Some ini |} w = (w, Raise (KeyError "metadata_type"))) ∧
  (is_Some (init_metadata_type ini) → init_document_type ini = None →
   __init__ get_required_for get_lookup_values get_default_value exception_text cls
     {| kw_initial := Some ini |} w = (w, Raise (KeyError "document_type"))).
Proof.
  unfold __init__, bind. cbn [kw_initial]. split.
  - by intros ->.
  - by intros [mt ->] ->.
Qed.

(** X14. Building a value form for a metadata type and a document type
    asks once whether the type is required, evaluates the lookup template
    only when the type has one and the default template only when the type
    has one, in this order, and writes nothing. The form has the same
    fields as its class and remembers both objects. *)
Theorem value_form_init_calls cls mt dt w :
  value_form_fields cls →
  ∃ form,
    __init__ get_required_for get_lookup_values get_default_value exception_text cls
      (initial_of mt dt) w
      = (logged w
           ([EvRequiredFor (mt_pk mt) (dt_pk dt)]
            ++ (if has_template (mt_lookup mt) then [EvLookupValues (mt_pk mt)] else [])
            ++ (if has_template (mt_default mt) then [EvDefaultValue (mt_pk mt)] else [])),
         Ok form) ∧
    dom (fields form) = dom cls ∧
    metadata_type form = Some mt ∧ document_type form = Some dt.
Proof.
  intros Hcls. eexists. split; [by apply init_run|].
  cbn. by rewrite built_fields_dom.
Qed.

(** X15. The hidden and the display field of a built value form: the id
    field starts with the metadata type's primary key; the name field shows
    the label, or the name when the label is empty, followed by
    [' (Required)'] exactly when the type is required; the update toggle
    stays initially set for a required type. *)
Theorem value_form_init_labels mt dt w :
  let required := get_required_for (relationships w) mt dt in
  ∃ w' form,
    __init__ get_required_for get_lookup_values get_default_value exception_text base_fields
      (initial_of mt dt) w = (w', Ok form) ∧
    field_initial <$> fields form !! "metadata_type_id" = Some (PInt (mt_pk mt)) ∧
    field_initial <$> fields form !! "metadata_type_name" =
      Some (PStr ((if String.eqb (mt_label mt) "" then mt_name mt else mt_label mt)
                  +:+ (if required then " (Required)" else ""))) ∧
    field_initial <$> fields form !! "update" = Some (PBool required).
Proof.
  intros required. eexists _, _. split; [apply init_run, base_fields_ok|]. cbn.
  rewrite built_fields_id, built_fields_name, built_fields_update.
  fold required. unfold has_template.
  split; [done|]. split; [by destruct (String.eqb _ _)|by destruct required].
Qed.

(** X16. A lookup that evaluates turns the value field into a choice field
    that keeps the label, is required exactly when the type is, and offers
    each evaluated value as its own label, in order, preceded by an empty
    placeholder choice exactly when the type is not required. Unless a
    default template fails afterwards, its widget is a select with the
    ['metadata-value'] class. *)
Theorem value_form_lookup_choices mt dt choices w :
  mt_lookup mt ≠ "" →
  get_lookup_values mt = Ok choices →
  let required := get_required_for (relationships w) mt dt in
  ∃ w' form f,
    __init__ get_required_for get_lookup_values get_default_value exception_text base_fields
      (initial_of mt dt) w = (w', Ok form) ∧
    fields form !! "value" = Some f ∧
    field_class_of f = ChoiceField ∧ field_label f = "Value" ∧
    field_required f = required ∧
    field_choices f = (if required then [] else [("", "------")])
                      ++ zip choices choices ∧
    ((mt_default mt = "" ∨ ∃ value, get_default_value mt = Ok value) →
     field_widget f = {| widget_class_of := Select;
                         attrs := {[ "class" := "metadata-value" ]} |}).
Proof.
  intros Hlookup Hchoices required.
  eexists _, _, _. split; [apply init_run, base_fields_ok|]. cbn [fields].
  rewrite built_fields_value, Hchoices. fold required.
  assert (has_template (mt_lookup mt) = true) as ->.
  { unfold has_template. by apply negb_true_iff, String.eqb_neq. }
  split; [reflexivity|]. cbn.
  destruct (has_template (mt_default mt)) eqn:Hdefault;
    [destruct (get_default_value mt) as [value|e]|];
    cbn; (split; [done|]); (split; [done|]); (split; [done|]);
    (split; [by destruct required|]); [done| |done].
  intros [Hempty|[value [=]]]. unfold has_template in Hdefault.
  by rewrite Hempty in Hdefault.
Qed.

(** X17. A lookup that raises leaves a required choice field without
    choices, also for a type that is not required: whatever is submitted
    for it, the framework's cleaning of that field fails. *)
Theorem value_form_lookup_failure_blocks mt dt e w :
  mt_lookup mt ≠ "" →
  get_lookup_values mt = Raise e →
  ∃ w' form f,
    __init__ get_required_for get_lookup_values get_default_value exception_text base_fields
      (initial_of mt dt) w = (w', Ok form) ∧
    fields form !! "value" = Some f ∧
    field_required f = true ∧ field_choices f = [] ∧
    ∀ submitted, ∃ e', clean_field f submitted = Raise e'.
Proof.
  intros Hlookup Hraise.
  eexists _, _, _. split; [apply init_run, base_fields_ok|]. cbn [fields].
  rewrite built_fields_value, Hraise.
  assert (has_template (mt_lookup mt) = true) as ->.
  { unfold has_template. by apply negb_true_iff, String.eqb_neq. }
  split; [reflexivity|]. cbn.
  destruct (has_template (mt_default mt)); [destruct (get_default_value mt)|];
    cbn; (split; [done|]); (split; [done|]);
    intros submitted; unfold clean_field; cbn;
    destruct (String.eqb submitted ""); by eexists.
Qed.

(** X18. Without a lookup template the value field stays the class's text
    field, required exactly when the type is. A default template that
    evaluates becomes its initial content and the field stays editable; one
    that raises puts the message prefixed ['Default value error: '] there,
    followed by the text [str()] gives for the exception, and makes the
    input read-only. *)
Theorem value_form_default_value mt dt w :
  mt_lookup mt = "" → mt_default mt ≠ "" →
  let required := get_required_for (relationships w) mt dt in
  ∃ w' form f,
    __init__ get_required_for get_lookup_values get_default_value exception_text base_fields
      (initial_of mt dt) w = (w', Ok form) ∧
    fields form !! "value" = Some f ∧
    field_class_of f = CharField ∧ field_required f = required ∧
    match get_default_value mt with
    | Ok value =>
        field_initial f = PStr value ∧
        field_widget f = forms_TextInput {[ "class" := "metadata-value" ]}
    | Raise e =>
        field_initial f = PStr ("Default value error: " +:+ exception_text e) ∧
        field_widget f = readonly_input
    end.
Proof.
  intros Hlookup Hdefault required.
  eexists _, _, _. split; [apply init_run, base_fields_ok|]. cbn [fields].
  rewrite built_fields_value. fold required.
  assert (has_template (mt_lookup mt) = false) as ->.
  { unfold has_template. by rewrite Hlookup. }
  assert (has_template (mt_default mt) = true) as ->.
  { unfold has_template. by apply negb_true_iff, String.eqb_neq. }
  split; [reflexivity|]. cbn. by destruct (get_default_value mt).
Qed.

End value_form_construction.

(** ** Further properties: [clean] of the value form *)

Section value_form_clean.
Import DocumentMetadataForm.
Variable get_required_for : gmap nat Row → MetadataType → DocumentType → bool.
Variable get_lookup_values : MetadataType → result (list string).
Variable get_default_value : MetadataType → result string.
Variable exception_text : exn → string.
Variable validate_value :
  gmap nat Row → MetadataType → DocumentType → pyval → result pyval.
Implicit Types (w : World) (cd : gmap string pyval).

(** X19. With the update toggle set, and the ['value'] key present if the
    type is required, [clean] hands the submitted value (or [None] when the
    key is absent) to the validator once. If the validator returns, the
    result is the cleaned data with ['value'] replaced by what it returned;
    if it raises, [clean] raises the same exception. *)
Theorem clean_update_validates self mt dt w :
  metadata_type self = Some mt → document_type self = Some dt →
  truthy (dict_get (cleaned_data self) "update") = true →
  (get_required_for (relationships w) mt dt = true →
   is_Some (cleaned_data self !! "value")) →
  let cd := cleaned_data self in
  clean get_required_for validate_value self w =
    (logged w [EvRequiredFor (mt_pk mt) (dt_pk dt);
               EvValidateValue (mt_pk mt) (dt_pk dt) (dict_get cd "value")],
     match validate_value (relationships w) mt dt (dict_get cd "value") with
     | Ok value => Ok (<["value" := value]> cd)
     | Raise e => Raise e
     end).
Proof.
  intros Hmt Hdt Hupdate Hvalue cd. subst cd.
  rewrite (clean_run _ _ self mt dt w Hmt Hdt). cbn zeta.
  unfold validate_part. rewrite Hupdate, logged_logged. cbn.
  destruct (get_required_for (relationships w) mt dt); [|done].
  destruct (Hvalue eq_refl) as [value ->]. by rewrite andb_false_r.
Qed.

(** X20. With the update toggle unset the validator is never called, and
    [clean] has three outcomes. For a type that is not required, or a
    required one with a non-empty value, it returns the cleaned data
    unchanged; for a required type with an empty value it raises the
    required-value error quoting the label; for a required type without a
    ['value'] key it fails with [KeyError]. *)
Theorem clean_update_unset self mt dt w :
  metadata_type self = Some mt → document_type self = Some dt →
  truthy (dict_get (cleaned_data self) "update") = false →
  let cd := cleaned_data self in
  clean get_required_for validate_value self w =
    (logged w [EvRequiredFor (mt_pk mt) (dt_pk dt)],
     if get_required_for (relationships w) mt dt
     then match cd !! "value" with
          | None => Raise (KeyError "value")
          | Some value =>
              if truthy value then Ok cd
              else Raise (ValidationError
                            (dquote +:+ mt_label mt +:+ dquote
                               +:+ " is required for this document type."))
          end
     else Ok cd).
Proof.
  intros Hmt Hdt Hupdate cd. subst cd.
  rewrite (clean_run _ _ self mt dt w Hmt Hdt). cbn zeta.
  unfold validate_part. rewrite Hupdate.
  destruct (get_required_for (relationships w) mt dt); [|done].
  destruct (cleaned_data self !! "value") as [value|]; [|done].
  by destruct (truthy value).
Qed.

(** X21. Whatever [clean] does, whether it returns or raises, it writes
    nothing to the relationship table; and when it returns, every key
    other than ['value'] holds what the cleaned data held. *)
Theorem clean_frame self w :
  relationships (clean get_required_for validate_value self w).1 = relationships w ∧
  ∀ cd', (clean get_required_for validate_value self w).2 = Ok cd' →
    ∀ key, key ≠ "value" → cd' !! key = cleaned_data self !! key.
Proof.
  destruct (metadata_type self) as [mt|] eqn:Hmt.
  2:{ rewrite (clean_no_metadata_type _ _ self w Hmt). cbn. split; [done|].
      by intros cd' [= <-]. }
  destruct (document_type self) as [dt|] eqn:Hdt.
  2:{ unfold clean, bind. by rewrite Hmt, Hdt. }
  rewrite (clean_run _ _ self mt dt w Hmt Hdt). cbn zeta. unfold validate_part.
  assert (∀ w1 (run : World * result (gmap string pyval)),
    relationships w1 = relationships w →
    run =
      (if truthy (dict_get (cleaned_data self) "update")
       then (logged w1 [EvValidateValue (mt_pk mt) (dt_pk dt)
                          (dict_get (cleaned_data self) "value")],
             match validate_value (relationships w1) mt dt
                     (dict_get (cleaned_data self) "value") with
             | Ok v => Ok (<["value" := v]> (cleaned_data self))
             | Raise e => Raise e
             end)
       else (w1, Ok (cleaned_data self))) →
    relationships run.1 = relationships w ∧
    ∀ cd', run.2 = Ok cd' →
      ∀ key, key ≠ "value" → cd' !! key = cleaned_data self !! key) as Hpart.
  { intros w1 run Hw1 ->. destruct (truthy _); cbn.
    - split; [done|]. destruct (validate_value _ _ _ _) as [v|e]; [|done].
      intros cd' [= <-] key Hkey. by rewrite lookup_insert_ne.
    - split; [done|]. by intros cd' [= <-]. }
  destruct (get_required_for (relationships w) mt dt);
    [|by apply (Hpart (logged w [EvRequiredFor (mt_pk mt) (dt_pk dt)]))].
  destruct (cleaned_data self !! "value") as [value|]; [|done].
  destruct (negb (truthy value) && _); [done|].
  by apply (Hpart (logged w [EvRequiredFor (mt_pk mt) (dt_pk dt)])).
Qed.

(** X22. A value form built for a required type cannot be cleaned after an
    empty submission. Whatever its templates do, the constructor leaves the
    value field required; the framework's cleaning of an empty or missing
    value then leaves no ['value'] key, and [clean] fails with [KeyError] as
    long as the type is still required. *)
Theorem required_form_empty_submission mt dt data w0 w :
  get_required_for (relationships w0) mt dt = true →
  get_required_for (relationships w) mt dt = true →
  default "" (data !! "value") = "" →
  ∃ w1 form,
    __init__ get_required_for get_lookup_values get_default_value exception_text base_fields
      (initial_of mt dt) w0 = (w1, Ok form) ∧
    field_required <$> fields form !! "value" = Some true ∧
    clean get_required_for validate_value
      (with_cleaned_data form (Form__clean_fields (fields form) data)) w
      = (logged w [EvRequiredFor (mt_pk mt) (dt_pk dt)], Raise (KeyError "value")).
Proof.
  intros Hreq0 Hreq Hempty.
  eexists _, _. split; [apply init_run, base_fields_ok|]. cbn [fields].
  rewrite Hreq0.
  assert (∃ f, built_fields exception_text base_fields true mt (get_lookup_values mt)
                 (get_default_value mt) !! "value" = Some f ∧
               field_required f = true ∧ field_class_of f ≠ BooleanField)
    as (f & Hf & Hrequired & Hclass).
  { rewrite built_fields_value. eexists. split; [reflexivity|]. cbn.
    destruct (has_template (mt_default mt)), (get_default_value mt),
      (has_template (mt_lookup mt)), (get_lookup_values mt); by cbn. }
  rewrite Hf. split; [by rewrite <- Hrequired|].
  erewrite (clean_run _ _ _ mt dt w) by reflexivity. cbn zeta.
  rewrite Hreq. cbn [cleaned_data with_cleaned_data].
  unfold Form__clean_fields. rewrite map_lookup_imap, Hf. cbn.
  rewrite Hempty. unfold clean_field.
  by destruct (field_class_of f); cbn; rewrite ?Hrequired.
Qed.

(** X23. The bulk remove form is built like the value form and then loses
    its value field: for a metadata type and a document type it makes the
    same collaborator calls, templates included, and ends with exactly the
    id, name and update fields. *)
Theorem remove_form_init_calls mt dt w :
  ∃ form,
    DocumentMetadataRemoveForm.__init__
      get_required_for get_lookup_values get_default_value exception_text (initial_of mt dt) w
      = (logged w
           ([EvRequiredFor (mt_pk mt) (dt_pk dt)]
            ++ (if has_template (mt_lookup mt) then [EvLookupValues (mt_pk mt)] else [])
            ++ (if has_template (mt_default mt) then [EvDefaultValue (mt_pk mt)] else [])),
         Ok form) ∧
    dom (fields form) = {[ "metadata_type_id"; "metadata_type_name"; "update" ]} ∧
    metadata_type form = Some mt ∧ document_type form = Some dt.
Proof.
  unfold DocumentMetadataRemoveForm.__init__.
  erewrite bind_run_Ok by (apply init_run, remove_base_fields_ok). cbn [fields].
  pose proof (proj2 (built_fields_is_Some exception_text DocumentMetadataRemoveForm.base_fields
    (get_required_for (relationships w) mt dt) mt (get_lookup_values mt)
    (get_default_value mt) "value") (ltac:(by eexists))) as [v Hv].
  rewrite Hv. eexists. split; [reflexivity|]. cbn.
  rewrite dom_delete_L, built_fields_dom. split; [|done].
  unfold DocumentMetadataRemoveForm.base_fields, base_fields.
  rewrite !dom_insert_L, ?dom_singleton_L, ?dom_empty_L. set_solver.
Qed.

End value_form_clean.

(** ** Further properties: the bulk add form and the metadata type form *)

Section add_form_properties.
Import DocumentMetadataAddForm.
Variable get_for_document_type : DocumentType → QuerySet.

Lemma Form_init_run names w :
  Form___init__ names w =
    (w, match filter (λ name, name ∉ Form_parameters) names with
        | [] => Ok tt
        | name :: _ =>
            Raise (TypeError ("__init__() got an unexpected keyword argument '"
                              +:+ name +:+ "'"))
        end).
Proof. unfold Form___init__. by destruct (filter _ names). Qed.

(** X24. The bulk add form cannot be built with a keyword the base form
    does not declare, nor with a queryset and no document type: in both
    cases the constructor fails with a [TypeError], whatever else is
    passed, and has touched nothing. *)
Theorem add_form_init_type_error kw w :
  Exists (λ name, name ∉ Form_parameters) (kw_others kw) ∨
    (kw_document_type kw = None ∧ is_Some (kw_queryset kw)) →
  ∃ msg, __init__ get_for_document_type kw w = (w, Raise (TypeError msg)).
Proof.
  assert (∀ names, Exists (λ name, name ∉ Form_parameters) names →
    ∃ msg, Form___init__ names w = (w, Raise (TypeError msg))) as Hbase.
  { intros names Hbad. rewrite Form_init_run.
    destruct (filter _ names) as [|name rest] eqn:Hfilter; [|by eexists].
    exfalso. apply Exists_exists in Hbad as (name & Hin & Hnot).
    assert (name ∈ filter (λ n, n ∉ Form_parameters) names) as Hname
      by by apply list_elem_of_filter.
    rewrite Hfilter in Hname. by apply elem_of_nil in Hname. }
  intros Hcase. unfold __init__.
  assert (Exists (λ name, name ∉ Form_parameters)
            (match kw_document_type kw with
             | Some _ => kw_others kw
             | None => match kw_queryset kw with
                       | Some _ => "queryset" :: kw_others kw
                       | None => kw_others kw
                       end
             end)) as Hbad.
  { destruct Hcase as [Hothers|[-> [queryset ->]]].
    - destruct (kw_document_type kw), (kw_queryset kw);
        try done; by apply Exists_cons_tl.
    - apply Exists_cons_hd. apply (bool_decide_unpack _). vm_compute. exact I. }
  destruct (kw_document_type kw) as [dt|];
    destruct (Hbase _ Hbad) as [msg Hfail]; exists msg;
    by rewrite (bind_run_Raise _ _ _ _ _ Hfail).
Qed.

(** X25. The selectable set of a bulk add form that was built: empty
    without a document type; with one, the queryset the caller supplied,
    also an empty one, and otherwise the metadata types of the document
    type. *)
Theorem add_form_selectable_set kw w w' form :
  __init__ get_for_document_type kw w = (w', Ok form) →
  metadata_type_queryset form =
    match kw_document_type kw, kw_queryset kw with
    | None, _ => []
    | Some _, Some queryset => queryset
    | Some dt, None => get_for_document_type dt
    end.
Proof.
  unfold __init__. destruct (kw_document_type kw) as [dt|].
  - intros (? & [] & _ & [-> _]%ret_Ok)%bind_Ok. by destruct (kw_queryset kw).
  - by intros (? & [] & _ & [-> _]%ret_Ok)%bind_Ok.
Qed.

End add_form_properties.

Section metadata_type_form.
Import MetadataTypeForm.
Variable lookup_context_help : string.

(** X26. The metadata type form's constructor replaces exactly the default
    and the lookup field by template fields that are not required; every
    other field and the set of fields stay as the model form made them. The
    default field keeps the model's help text, the lookup field's help
    text is the model's followed by the list of template context
    variables. If the model form lacks one of the two fields, the
    constructor fails with the [KeyError] on it. *)
Theorem metadata_type_form_init model_fields w :
  (∀ old_default old_lookup,
     model_fields !! "default" = Some old_default →
     model_fields !! "lookup" = Some old_lookup →
     ∃ fields,
       __init__ lookup_context_help model_fields w = (w, Ok fields) ∧
       dom fields = dom model_fields ∧
       fields !! "default" = Some (TemplateField (help_text_of old_default) false) ∧
       fields !! "lookup" =
         Some (TemplateField
                 (help_text_of old_lookup +:+ " Available template context variables: "
                    +:+ lookup_context_help) false) ∧
       ∀ name, name ≠ "default" → name ≠ "lookup" →
         fields !! name = model_fields !! name)
  ∧ (model_fields !! "default" = None →
     __init__ lookup_context_help model_fields w = (w, Raise (KeyError "default")))
  ∧ (is_Some (model_fields !! "default") → model_fields !! "lookup" = None →
     __init__ lookup_context_help model_fields w = (w, Raise (KeyError "lookup"))).
Proof.
  unfold __init__, bind. split; [|split].
  - intros old_default old_lookup Hdefault Hlookup. rewrite Hdefault. cbn.
    rewrite lookup_insert_ne, Hlookup by done. cbn.
    eexists. split; [reflexivity|]. split; [|split; [|split]].
    + rewrite dom_insert_lookup_L by (rewrite lookup_insert_ne by done; eauto).
      by rewrite dom_insert_lookup_L by eauto.
    + by rewrite lookup_insert_ne, lookup_insert_eq.
    + by rewrite lookup_insert_eq.
    + intros name Hd Hl. by rewrite !lookup_insert_ne.
  - by intros ->.
  - intros [old_default ->] Hlookup. cbn. by rewrite lookup_insert_ne, Hlookup.
Qed.

End metadata_type_form.

(** ** Worked examples for the further properties *)

Lemma get_relationship_type_reads_witness :
  DocumentTypeMetadataTypeRelationshipForm.get_relationship_type
    (relationship_form "none") one_row_world
  = (logged one_row_world [EvExists 1 2; EvGet 1 2], Ok "optional").
Proof.
  destruct (get_relationship_type_reads (relationship_form "none") invoice due_date
              one_row_world eq_refl eq_refl) as (_ & Hrow & _).
  exact (Hrow one_row_world_unique 5 (pair_row invoice due_date false)
           eq_refl (conj eq_refl eq_refl)).
Defined.

Lemma save_failure_writes_nothing_witness :
  DocumentTypeMetadataTypeRelationshipForm.save (relationship_form "none") empty_world
    = (logged empty_world [EvGet 1 2], Raise DoesNotExist) ∧
  relationships (logged empty_world [EvGet 1 2]) = relationships empty_world.
Proof.
  assert (DocumentTypeMetadataTypeRelationshipForm.save
            (relationship_form "none") empty_world
          = (logged empty_world [EvGet 1 2], Raise DoesNotExist)) as Hsave
    by (vm_compute; reflexivity).
  split; [exact Hsave|].
  exact (proj1 (save_failure_writes_nothing _ _ _ _ Hsave)).
Defined.

Lemma save_other_pairs_untouched_witness :
  relationships
    (DocumentTypeMetadataTypeRelationshipForm.save
       (relationship_form "none") two_pair_world).1 !! 9
  = Some (pair_row invoice currency true).
Proof.
  apply (proj2 (save_other_pairs_untouched (relationship_form "none")
                  invoice due_date two_pair_world 9 (pair_row invoice currency true)
                  eq_refl eq_refl ltac:(by intros [_ [=]]))).
  reflexivity.
Defined.

Lemma save_then_read_witness :
  ∃ w' evs,
    DocumentTypeMetadataTypeRelationshipForm.save
      (relationship_form "required") one_row_world = (w', Ok tt) ∧
    DocumentTypeMetadataTypeRelationshipForm.get_relationship_type
      (relationship_form "required") w' = (logged w' evs, Ok "required").
Proof.
  destruct (DocumentTypeMetadataTypeRelationshipForm.save
              (relationship_form "required") one_row_world) as [w' [[]|e]] eqn:Hsave;
    [|by vm_compute in Hsave].
  destruct (save_then_read (relationship_form "required") invoice due_date
              "required" "optional" one_row_world w' eq_refl eq_refl
              one_row_world_unique eq_refl eq_refl ltac:(discriminate) Hsave)
    as (evs & Hread & _).
  by exists w', evs.
Defined.

Lemma save_unknown_state_witness :
  DocumentTypeMetadataTypeRelationshipForm.save
    (relationship_form "mandatory") one_row_world
  = (one_row_world, Raise (AttributeError "save_relationship_mandatory")).
Proof.
  apply (save_unknown_state (relationship_form "mandatory") invoice due_date
           "mandatory" "optional" one_row_world eq_refl eq_refl eq_refl eq_refl).
  - discriminate.
  - apply (bool_decide_unpack _). vm_compute. exact I.
Defined.

Lemma save_without_main_model_witness :
  ∃ form e,
    DocumentTypeMetadataTypeRelationshipForm.__init__
      {| DocumentTypeMetadataTypeRelationshipForm.kw_user := Some admin;
         DocumentTypeMetadataTypeRelationshipForm.kw_initial := None |} one_row_world
      = (one_row_world, Ok form) ∧
    DocumentTypeMetadataTypeRelationshipForm.save
      (DocumentTypeMetadataTypeRelationshipForm.with_cleaned_data form
         {[ "relationship_type" := "optional" ]}) one_row_world
    = (one_row_world, Raise e).
Proof.
  destruct (DocumentTypeMetadataTypeRelationshipForm.__init__
              {| DocumentTypeMetadataTypeRelationshipForm.kw_user := Some admin;
                 DocumentTypeMetadataTypeRelationshipForm.kw_initial := None |}
              one_row_world) as [w1 [form|e]] eqn:Hinit; [|by vm_compute in Hinit].
  destruct (save_without_main_model _ one_row_world w1 form Hinit eq_refl)
    as (-> & _ & Hsave).
  destruct (Hsave {[ "relationship_type" := "optional" ]} one_row_world)
    as (e & He & _).
  by exists form, e.
Defined.

Lemma duplicate_rows_block_routines_witness :
  ∃ evs,
    DocumentTypeMetadataTypeRelationshipForm.save_relationship_optional
      (relationship_form "optional") (pair_query invoice due_date) two_row_world
    = (logged two_row_world evs, Raise MultipleObjectsReturned).
Proof.
  destruct (duplicate_rows_block_routines
              DocumentTypeMetadataTypeRelationshipForm.save_relationship_optional
              (relationship_form "optional") invoice due_date two_row_world 5 6
              (pair_row invoice due_date false) (pair_row invoice due_date true)
              (or_intror (or_introl eq_refl)) eq_refl eq_refl
              (conj eq_refl eq_refl) (conj eq_refl eq_refl) ltac:(discriminate))
    as (evs & Hrun & _).
  by exists evs.
Defined.

Lemma relationship_form_init_witness :
  ∃ form evs,
    DocumentTypeMetadataTypeRelationshipForm.__init__ relationship_kwargs one_row_world
      = (logged one_row_world evs, Ok form) ∧
    DocumentTypeMetadataTypeRelationshipForm.initial_relationship_type form
      = Some "optional" ∧
    field_initial <$> DocumentTypeMetadataTypeRelationshipForm.fields form !! "label"
      = Some (PStr "Invoice").
Proof.
  destruct (relationship_form_init relationship_kwargs admin relationship_initial
              "metadata_type" invoice due_date one_row_world
              eq_refl eq_refl eq_refl eq_refl eq_refl one_row_world_unique)
    as (form & evs & state & Hinit & _ & _ & _ & Hstate & Hlabel & _ & _ & Hrow).
  exists form, evs. split; [exact Hinit|]. split; [|exact Hlabel].
  rewrite Hstate.
  by rewrite (Hrow 5 (pair_row invoice due_date false) eq_refl (conj eq_refl eq_refl)).
Defined.

Lemma saves_keep_unique_pairs_witness :
  unique_pairs
    (relationships
       (for_each DocumentTypeMetadataTypeRelationshipForm.save
          [relationship_form "required"; relationship_form "none"] one_row_world).1).
Proof.
  exact (saves_keep_unique_pairs
           [relationship_form "required"; relationship_form "none"]
           one_row_world one_row_world_unique).
Defined.

Lemma saves_attributed_witness :
  ∃ evs,
    log (for_each DocumentTypeMetadataTypeRelationshipForm.save
           [relationship_form "required"; relationship_form "none"] one_row_world).1
      = log one_row_world ++ evs ∧
    Forall (written_by admin) evs ∧
    length (filter is_write evs) ≤ 2.
Proof.
  exact (saves_attributed admin
           [relationship_form "required"; relationship_form "none"] one_row_world
           ltac:(by repeat constructor)).
Defined.

Lemma formset_forms_carry_user_witness :
  ∃ w1 formset w2 forms,
    DocumentTypeMetadataTypeRelationshipFormSet.__init__ formset_kwargs one_row_world
      = (w1, Ok formset) ∧
    DocumentTypeMetadataTypeRelationshipFormSet.forms formset w1 = (w2, Ok forms) ∧
    Forall (λ form, DocumentTypeMetadataTypeRelationshipForm._user form = admin) forms ∧
    length forms = 1.
Proof.
  destruct (DocumentTypeMetadataTypeRelationshipFormSet.__init__
              formset_kwargs one_row_world) as [w1 [formset|e]] eqn:Hinit;
    [|by vm_compute in Hinit].
  pose proof Hinit as Hinit'. vm_compute in Hinit'. injection Hinit' as Hw1 Hformset.
  destruct (DocumentTypeMetadataTypeRelationshipFormSet.forms formset w1)
    as [w2 [forms|e]] eqn:Hforms;
    [|subst w1 formset; by vm_compute in Hforms].
  destruct (proj2 (formset_forms_carry_user formset_kwargs one_row_world)
              w1 formset w2 forms Hinit Hforms)
    as (user & [= <-] & _ & Husers & Hinitials & _).
  exists w1, formset, w2, forms. split; [done|]. split; [done|]. split; [done|].
  by rewrite <- (length_fmap DocumentTypeMetadataTypeRelationshipForm.initial),
    Hinitials.
Defined.

Lemma value_form_init_missing_key_witness :
  DocumentMetadataForm.__init__ never_required failing_lookup fixed_default message_text
    DocumentMetadataForm.base_fields
    {| DocumentMetadataForm.kw_initial :=
         Some {| DocumentMetadataForm.init_metadata_type := Some currency;
                 DocumentMetadataForm.init_document_type := None |} |} one_row_world
  = (one_row_world, Raise (KeyError "document_type")).
Proof.
  apply (proj2 (value_form_init_missing_key never_required failing_lookup
                  fixed_default message_text DocumentMetadataForm.base_fields
                  {| DocumentMetadataForm.init_metadata_type := Some currency;
                     DocumentMetadataForm.init_document_type := None |}
                  one_row_world)).
  - by eexists.
  - reflexivity.
Defined.

Lemma value_form_init_calls_witness :
  ∃ form,
    DocumentMetadataForm.__init__ never_required failing_lookup fixed_default message_text
      DocumentMetadataForm.base_fields (initial_of currency invoice) empty_world
    = (logged empty_world [EvRequiredFor 3 1; EvLookupValues 3; EvDefaultValue 3],
       Ok form) ∧
    dom (DocumentMetadataForm.fields form) = dom DocumentMetadataForm.base_fields.
Proof.
  destruct (value_form_init_calls never_required failing_lookup fixed_default message_text
              DocumentMetadataForm.base_fields currency invoice empty_world
              base_fields_ok) as (form & Hinit & Hdom & _).
  exists form. split; [exact Hinit|exact Hdom].
Defined.

Lemma value_form_lookup_choices_witness :
  ∃ w' form f,
    DocumentMetadataForm.__init__ never_required currency_lookup fixed_default message_text
      DocumentMetadataForm.base_fields (initial_of currency invoice) empty_world
    = (w', Ok form) ∧
    DocumentMetadataForm.fields form !! "value" = Some f ∧
    field_choices f = [("", "------"); ("EUR", "EUR"); ("USD", "USD")] ∧
    field_required f = false.
Proof.
  destruct (value_form_lookup_choices never_required currency_lookup fixed_default message_text
              currency invoice ["EUR"; "USD"] empty_world
              ltac:(discriminate) eq_refl)
    as (w' & form & f & Hinit & Hvalue & _ & _ & Hrequired & Hchoices & _).
  exists w', form, f. split; [exact Hinit|]. split; [exact Hvalue|].
  split; [exact Hchoices|exact Hrequired].
Defined.

Lemma value_form_lookup_failure_blocks_witness :
  ∃ w' form f e,
    DocumentMetadataForm.__init__ never_required failing_lookup fixed_default message_text
      DocumentMetadataForm.base_fields (initial_of currency invoice) empty_world
    = (w', Ok form) ∧
    DocumentMetadataForm.fields form !! "value" = Some f ∧
    field_required f = true ∧
    clean_field f "EUR" = Raise e.
Proof.
  destruct (value_form_lookup_failure_blocks never_required failing_lookup
              fixed_default message_text currency invoice
              (OtherException "Could not parse the remainder") empty_world
              ltac:(discriminate) eq_refl)
    as (w' & form & f & Hinit & Hvalue & Hrequired & _ & Hblocked).
  destruct (Hblocked "EUR") as [e He].
  by exists w', form, f, e.
Defined.

Lemma value_form_default_value_witness :
  ∃ w' form f,
    DocumentMetadataForm.__init__ always_required no_lookup fixed_default message_text
      DocumentMetadataForm.base_fields (initial_of country invoice) empty_world
    = (w', Ok form) ∧
    DocumentMetadataForm.fields form !! "value" = Some f ∧
    field_required f = true ∧ field_initial f = PStr "EUR".
Proof.
  destruct (value_form_default_value always_required no_lookup fixed_default message_text
              country invoice empty_world eq_refl ltac:(discriminate))
    as (w' & form & f & Hinit & Hvalue & _ & Hrequired & Hinitial & _).
  by exists w', form, f.
Defined.

Lemma clean_update_validates_witness :
  DocumentMetadataForm.clean always_required reject_empty
    (value_form {[ "value" := PStr "2026-12-01"; "update" := PBool true ]}) empty_world
  = (logged empty_world [EvRequiredFor 2 1; EvValidateValue 2 1 (PStr "2026-12-01")],
     Ok (<["value" := PStr "2026-12-01"]>
           {[ "value" := PStr "2026-12-01"; "update" := PBool true ]})).
Proof.
  exact (clean_update_validates always_required reject_empty
           (value_form {[ "value" := PStr "2026-12-01"; "update" := PBool true ]})
           due_date invoice empty_world eq_refl eq_refl eq_refl
           (λ _, ex_intro _ (PStr "2026-12-01") eq_refl)).
Defined.

Lemma clean_update_unset_witness :
  DocumentMetadataForm.clean always_required reject_empty
    (value_form {[ "value" := PStr "2026-12-01"; "update" := PBool false ]}) empty_world
  = (logged empty_world [EvRequiredFor 2 1],
     Ok {[ "value" := PStr "2026-12-01"; "update" := PBool false ]}).
Proof.
  exact (clean_update_unset always_required reject_empty
           (value_form {[ "value" := PStr "2026-12-01"; "update" := PBool false ]})
           due_date invoice empty_world eq_refl eq_refl eq_refl).
Defined.

Lemma clean_frame_witness :
  relationships
    (DocumentMetadataForm.clean always_required reject_empty
       (value_form {[ "value" := PStr ""; "update" := PBool true;
                      "metadata_type_id" := PStr "2" ]}) one_row_world).1
  = relationships one_row_world.
Proof.
  exact (proj1 (clean_frame always_required reject_empty
                  (value_form {[ "value" := PStr ""; "update" := PBool true;
                                 "metadata_type_id" := PStr "2" ]})
                  one_row_world)).
Defined.

Lemma required_form_empty_submission_witness :
  ∃ w1 form,
    DocumentMetadataForm.__init__ always_required currency_lookup fixed_default message_text
      DocumentMetadataForm.base_fields (initial_of currency invoice) empty_world
    = (w1, Ok form) ∧
    DocumentMetadataForm.clean always_required reject_empty
      (DocumentMetadataForm.with_cleaned_data form
         (Form__clean_fields (DocumentMetadataForm.fields form)
            submitted_without_value)) one_row_world
    = (logged one_row_world [EvRequiredFor 3 1], Raise (KeyError "value")).
Proof.
  destruct (required_form_empty_submission always_required currency_lookup
              fixed_default message_text reject_empty currency invoice submitted_without_value
              empty_world one_row_world eq_refl eq_refl eq_refl)
    as (w1 & form & Hinit & _ & Hclean).
  by exists w1, form.
Defined.

Lemma add_form_init_type_error_witness :
  ∃ msg,
    DocumentMetadataAddForm.__init__ (λ _, [due_date])
      {| DocumentMetadataAddForm.kw_document_type := Some invoice;
         DocumentMetadataAddForm.kw_queryset := Some [currency];
         DocumentMetadataAddForm.kw_others := ["data"; "_user"] |} empty_world
    = (empty_world, Raise (TypeError msg)).
Proof.
  apply (add_form_init_type_error (λ _, [due_date])
           {| DocumentMetadataAddForm.kw_document_type := Some invoice;
              DocumentMetadataAddForm.kw_queryset := Some [currency];
              DocumentMetadataAddForm.kw_others := ["data"; "_user"] |}
           empty_world).
  left. apply (bool_decide_unpack _). vm_compute. exact I.
Defined.

Lemma add_form_selectable_set_witness :
  ∃ form,
    DocumentMetadataAddForm.__init__ (λ _, [due_date])
      {| DocumentMetadataAddForm.kw_document_type := Some invoice;
         DocumentMetadataAddForm.kw_queryset := None;
         DocumentMetadataAddForm.kw_others := [] |} empty_world
    = (empty_world, Ok form) ∧
    DocumentMetadataAddForm.metadata_type_queryset form = [due_date].
Proof.
  destruct (DocumentMetadataAddForm.__init__ (λ _, [due_date])
              {| DocumentMetadataAddForm.kw_document_type := Some invoice;
                 DocumentMetadataAddForm.kw_queryset := None;
                 DocumentMetadataAddForm.kw_others := [] |} empty_world)
    as [w' [form|e]] eqn:Hinit; [|by vm_compute in Hinit].
  pose proof (add_form_selectable_set _ _ _ _ _ Hinit) as Hset.
  vm_compute in Hinit. injection Hinit as <- Hform.
  exists form. split; [by rewrite <- Hform|exact Hset].
Defined.

Lemma metadata_type_form_init_witness :
  ∃ fields,
    MetadataTypeForm.__init__ "{{ document }}" metadata_type_model_fields empty_world
    = (empty_world, Ok fields) ∧
    fields !! "lookup" =
      Some (MetadataTypeForm.TemplateField
              "Enter a template to render. Available template context variables: {{ document }}"
              false) ∧
    fields !! "name" = metadata_type_model_fields !! "name".
Proof.
  destruct (proj1 (metadata_type_form_init "{{ document }}"
                     metadata_type_model_fields empty_world)
              (MetadataTypeForm.ModelField "Enter a template to render." false)
              (MetadataTypeForm.ModelField "Enter a template to render." false)
              eq_refl eq_refl)
    as (fields & Hinit & _ & _ & Hlookup & Hothers).
  exists fields. split; [exact Hinit|]. split; [exact Hlookup|].
  apply Hothers; discriminate.
Defined.
